(** * Drug Development Research Explorer: the search page (src/app/page.tsx)

    A shallow embedding of the [Home] component: the strings of the
    platform (UTF-16 code units), [String.prototype.trim],
    [encodeURIComponent], the JSON envelope of the identifier search, the
    DOM tree of the detail payload with the selectors the parser uses,
    [searchPapers] as a state-and-exception computation over the
    component's state, and the view returned by [Home]. *)

From Stdlib Require Import List NArith ZArith Lia Bool String Ascii.
Import ListNotations.

Set Warnings "-register-all".
Local Open Scope N_scope.

(* ================================================================== *)
(** ** Strings: sequences of UTF-16 code units *)

Module JsString.

Definition code_unit := N.
Definition jsstring := list code_unit.

(** A source literal (all literals of page.tsx that the model keeps are
    ASCII, so one code unit per character). *)
Definition js (s : string) : jsstring :=
  map N_of_ascii (list_ascii_of_string s).

Fixpoint eqb (a b : jsstring) : bool :=
  match a, b with
  | [], [] => true
  | x :: a', y :: b' => N.eqb x y && eqb a' b'
  | _, _ => false
  end.

(** [s.length > 0], the truthiness of a string. *)
Definition nonempty (s : jsstring) : bool :=
  match s with [] => false | _ :: _ => true end.

(** [a || b] on strings. *)
Definition or_else (a b : jsstring) : jsstring :=
  if nonempty a then a else b.

(** WhiteSpace and LineTerminator of ECMAScript, the code units that
    [trim] and [parseInt] strip. *)
Definition is_white_space (c : code_unit) : bool :=
  (c =? 0x09) || (c =? 0x0A) || (c =? 0x0B) || (c =? 0x0C) || (c =? 0x0D)
  || (c =? 0x20) || (c =? 0xA0) || (c =? 0x1680)
  || ((0x2000 <=? c) && (c <=? 0x200A))
  || (c =? 0x2028) || (c =? 0x2029) || (c =? 0x202F) || (c =? 0x205F)
  || (c =? 0x3000) || (c =? 0xFEFF).

Fixpoint trimStart (s : jsstring) : jsstring :=
  match s with
  | [] => []
  | c :: s' => if is_white_space c then trimStart s' else s
  end.

Definition trimEnd (s : jsstring) : jsstring := rev (trimStart (rev s)).

Definition trim (s : jsstring) : jsstring := trimEnd (trimStart s).

(** [a.substring(0, n)] for [0 <= n]. *)
Definition substring0 (n : nat) (s : jsstring) : jsstring := firstn n s.

(** [parts.join(sep)] on an array of strings. *)
Fixpoint join (sep : jsstring) (parts : list jsstring) : jsstring :=
  match parts with
  | [] => []
  | [p] => p
  | p :: ps => p ++ sep ++ join sep ps
  end.

(** *** Surrogates and well-formedness *)

Definition is_high_surrogate (c : code_unit) : bool :=
  (0xD800 <=? c) && (c <=? 0xDBFF).
Definition is_low_surrogate (c : code_unit) : bool :=
  (0xDC00 <=? c) && (c <=? 0xDFFF).

(** [String.prototype.isWellFormed]: no unpaired surrogate. *)
Fixpoint isWellFormed (s : jsstring) : bool :=
  match s with
  | [] => true
  | c :: rest =>
      if is_high_surrogate c then
        match rest with
        | d :: rest' => is_low_surrogate d && isWellFormed rest'
        | [] => false
        end
      else if is_low_surrogate c then false
      else isWellFormed rest
  end.

(** *** encodeURIComponent *)

(** The unreserved set: ASCII letters, digits and [-_.!~*'()]. *)
Definition is_unreserved (c : code_unit) : bool :=
  ((0x41 <=? c) && (c <=? 0x5A)) || ((0x61 <=? c) && (c <=? 0x7A))
  || ((0x30 <=? c) && (c <=? 0x39))
  || (c =? 0x2D) || (c =? 0x5F) || (c =? 0x2E) || (c =? 0x21)
  || (c =? 0x7E) || (c =? 0x2A) || (c =? 0x27) || (c =? 0x28) || (c =? 0x29).

(** The code point of a surrogate pair. *)
Definition pair_code_point (hi lo : code_unit) : N :=
  N.shiftl (hi - 0xD800) 10 + (lo - 0xDC00) + 0x10000.

(** The UTF-8 octets of a code point. *)
Definition utf8 (cp : N) : list N :=
  if cp <? 0x80 then [cp]
  else if cp <? 0x800 then
    [N.lor 0xC0 (N.shiftr cp 6); N.lor 0x80 (N.land cp 0x3F)]
  else if cp <? 0x10000 then
    [N.lor 0xE0 (N.shiftr cp 12);
     N.lor 0x80 (N.land (N.shiftr cp 6) 0x3F);
     N.lor 0x80 (N.land cp 0x3F)]
  else
    [N.lor 0xF0 (N.shiftr cp 18);
     N.lor 0x80 (N.land (N.shiftr cp 12) 0x3F);
     N.lor 0x80 (N.land (N.shiftr cp 6) 0x3F);
     N.lor 0x80 (N.land cp 0x3F)].

Definition hex_digit (d : N) : code_unit :=
  if d <? 10 then 0x30 + d else 0x41 + (d - 10).

(** One octet as [%XX], upper-case hexadecimal. *)
Definition percent (octet : N) : jsstring :=
  [0x25; hex_digit (N.shiftr octet 4); hex_digit (N.land octet 0xF)].

Definition percent_all (octets : list N) : jsstring :=
  flat_map percent octets.

(** [encodeURIComponent s]; [None] stands for the URIError thrown at an
    unpaired surrogate. *)
Fixpoint encodeURIComponent (s : jsstring) : option jsstring :=
  match s with
  | [] => Some []
  | c :: rest =>
      if is_unreserved c then option_map (cons c) (encodeURIComponent rest)
      else if is_high_surrogate c then
        match rest with
        | d :: rest' =>
            if is_low_surrogate d
            then option_map (app (percent_all (utf8 (pair_code_point c d))))
                            (encodeURIComponent rest')
            else None
        | [] => None
        end
      else if is_low_surrogate c then None
      else option_map (app (percent_all (utf8 c))) (encodeURIComponent rest)
  end.

(** [needle] occurs in [hay] as a contiguous substring, [hay.includes(needle)]. *)
Definition includes (hay needle : jsstring) : Prop :=
  exists pre post, hay = pre ++ needle ++ post.

End JsString.
Import JsString.


(* ================================================================== *)
(** ** Exceptions *)

(** What a [throw] or a rejected promise carries; [searchPapers] catches
    every one of them alike. *)
Inductive exn :=
| URIError      (* encodeURIComponent at an unpaired surrogate *)
| TypeError     (* property read on null or undefined, call of a non-function *)
| SyntaxError   (* response.json() on a body that is not JSON *)
| NetworkError. (* fetch rejected, or the body could not be read *)

Inductive completion (A : Type) :=
| Normal (a : A)
| Throw (e : exn).
Arguments Normal {A} a.
Arguments Throw {A} e.

(* ================================================================== *)
(** ** Numbers: the values [parseInt] can return *)

Module Number.

(** An integer-valued Number or an infinity.  (NaN is [None] where it can
    occur; it never reaches the state, line 48 replaces it by 0, and so
    does it with the two zeros.) *)
Inductive number :=
| Finite (z : Z)
| Infinite (negative : bool).

(** The Number value for a natural number: 53 significant bits, rounded
    to nearest, ties to even; from 2^1024 on there is none ([None], the
    value is an infinity). *)
Definition nearest_double (n : N) : option N :=
  let bits := N.size n in
  if bits <=? 53 then Some n
  else
    let e := bits - 53 in
    let q := N.shiftr n e in
    let r := N.land n (N.ones e) in
    let half := N.shiftl 1 (e - 1) in
    let q' := if (half <? r) || ((r =? half) && N.odd q) then q + 1 else q in
    let m := N.shiftl q' e in
    if m <? 2 ^ 1024 then Some m else None.

(** The Number value for an integer. *)
Definition to_number (z : Z) : number :=
  match z with
  | Z0 => Finite 0
  | Zpos p =>
      match nearest_double (Npos p) with
      | Some m => Finite (Z.of_N m)
      | None => Infinite false
      end
  | Zneg p =>
      match nearest_double (Npos p) with
      | Some m => Finite (- Z.of_N m)
      | None => Infinite true
      end
  end.

(** [n > 0]. *)
Definition positive (n : number) : bool :=
  match n with
  | Finite z => (0 <? z)%Z
  | Infinite negative => negb negative
  end.

(** A number above zero: a positive integer or the positive infinity. *)
Definition is_positive (n : number) : Prop :=
  match n with
  | Finite z => (0 < z)%Z
  | Infinite negative => negative = false
  end.

End Number.
Import Number.

(* ================================================================== *)
(** ** JSON values, as [response.json()] resolves them *)

Module Json.

(** A number is kept as the text [ToString] gives for it: the page only
    ever tests numbers for truthiness or hands them to [parseInt]. *)
Inductive json :=
| JNull
| JBool (b : bool)
| JNum (text : jsstring)
| JStr (s : jsstring)
| JArr (items : list json)
| JObj (props : list (jsstring * json)).

(** A JavaScript value of the page's search data: a JSON value or
    [undefined] ([None]). *)
Definition value := option json.

Fixpoint assoc (k : jsstring) (props : list (jsstring * json)) : value :=
  match props with
  | [] => None
  | (k', v) :: rest => if JsString.eqb k k' then Some v else assoc k rest
  end.

(** [o.k] for the keys the page reads on objects ([esearchresult],
    [idlist], [count]): an own property of an object, [undefined] on any
    other non-null value, a TypeError on [null] and [undefined]. *)
Definition get (o : value) (k : jsstring) : completion value :=
  match o with
  | None | Some JNull => Throw TypeError
  | Some (JObj props) => Normal (assoc k props)
  | Some _ => Normal None
  end.

(** [o?.k] for the same keys. *)
Definition get_opt (o : value) (k : jsstring) : value :=
  match o with
  | Some (JObj props) => assoc k props
  | _ => None
  end.

(** ToBoolean. *)
Definition truthy (v : value) : bool :=
  match v with
  | None | Some JNull => false
  | Some (JBool b) => b
  | Some (JNum t) => negb (JsString.eqb t (js "0"))
  | Some (JStr s) => nonempty s
  | Some (JArr _) | Some (JObj _) => true
  end.

(** ToBoolean of [o?.length]: the length of an array or of a string, the
    own property [length] of an object, [undefined] otherwise. *)
Definition length_truthy (o : value) : bool :=
  match o with
  | Some (JArr items) => negb (Nat.eqb (List.length items) 0)
  | Some (JStr s) => nonempty s
  | Some (JObj props) => truthy (assoc (js "length") props)
  | _ => false
  end.

(** ToString of a JSON value.  An array is the comma-joined strings of
    its elements (empty for null).  An object goes through its
    [toString]: the one of Object.prototype gives [[object Object]]; an
    own key [toString] hides it, holds nothing callable, [valueOf] gives
    back the object, and the conversion throws a TypeError. *)
Fixpoint to_string (v : json) : completion jsstring :=
  match v with
  | JNull => Normal (js "null")
  | JBool true => Normal (js "true")
  | JBool false => Normal (js "false")
  | JNum t => Normal t
  | JStr s => Normal s
  | JArr items =>
      let fix elements (l : list json) : completion (list jsstring) :=
        match l with
        | [] => Normal []
        | x :: l' =>
            match match x with JNull => Normal [] | _ => to_string x end with
            | Throw e => Throw e
            | Normal s =>
                match elements l' with
                | Throw e => Throw e
                | Normal ss => Normal (s :: ss)
                end
            end
        end in
      match elements items with
      | Throw e => Throw e
      | Normal parts => Normal (join (js ",") parts)
      end
  | JObj props =>
      match assoc (js "toString") props with
      | Some _ => Throw TypeError
      | None => Normal (js "[object Object]")
      end
  end.

Definition value_to_string (v : value) : completion jsstring :=
  match v with
  | None => Normal (js "undefined")
  | Some j => to_string j
  end.

(** The strings [join] makes of the elements of an array, in order:
    empty for null, ToString otherwise. *)
Fixpoint element_strings (items : list json) : completion (list jsstring) :=
  match items with
  | [] => Normal []
  | x :: rest =>
      match match x with JNull => Normal [] | _ => to_string x end with
      | Throw e => Throw e
      | Normal s =>
          match element_strings rest with
          | Throw e => Throw e
          | Normal ss => Normal (s :: ss)
          end
      end
  end.

(** [ids.join(',')]: on an array, the elements' strings joined; anything
    else has no callable [join]. *)
Definition array_join (ids : value) (sep : jsstring) : completion jsstring :=
  match ids with
  | Some (JArr items) =>
      match element_strings items with
      | Throw e => Throw e
      | Normal parts => Normal (join sep parts)
      end
  | _ => Throw TypeError
  end.

(** *** parseInt, radix left out *)

Definition digit_value (radix : N) (c : code_unit) : option N :=
  let v :=
    if (0x30 <=? c) && (c <=? 0x39) then Some (c - 0x30)
    else if (0x61 <=? c) && (c <=? 0x7A) then Some (c - 0x61 + 10)
    else if (0x41 <=? c) && (c <=? 0x5A) then Some (c - 0x41 + 10)
    else None in
  match v with
  | Some d => if d <? radix then Some d else None
  | None => None
  end.

(** The value of the longest prefix of digits; [acc] is [None] until a
    digit has been read. *)
Fixpoint digits (radix : N) (s : jsstring) (acc : option N) : option N :=
  match s with
  | [] => acc
  | c :: s' =>
      match digit_value radix c with
      | Some d =>
          digits radix s'
            (Some (radix * match acc with Some a => a | None => 0 end + d))
      | None => acc
      end
  end.

(** The integer [parseInt(input)] reads, sign applied; [None] when there
    is no digit to read. *)
Definition parse_integer (input : jsstring) : option Z :=
  let s := trimStart input in
  let '(negative, s1) :=
    match s with
    | c :: r =>
        if c =? 0x2D then (true, r)
        else if c =? 0x2B then (false, r) else (false, s)
    | [] => (false, s)
    end in
  let '(radix, s2) :=
    match s1 with
    | z :: x :: r =>
        if (z =? 0x30) && ((x =? 0x78) || (x =? 0x58)) then (16, r)
        else (10, s1)
    | _ => (10, s1)
    end in
  match digits radix s2 None with
  | None => None
  | Some n => Some (if negative then (- Z.of_N n)%Z else Z.of_N n)
  end.

(** [parseInt(input)]: the Number value for that integer; [None] is NaN.
    (The standard lets an implementation drop decimal digits after the
    20th before rounding; the engines round the integer itself.) *)
Definition parseInt (input : jsstring) : option number :=
  option_map to_number (parse_integer input).

(** [parseInt(v) || 0]: ToString of the argument may throw; NaN and the
    zeros give 0. *)
Definition parseInt_or_0 (v : value) : completion number :=
  match value_to_string v with
  | Throw e => Throw e
  | Normal s =>
      Normal match parseInt s with
             | Some n => n
             | None => Finite 0
             end
  end.

End Json.
Import Json.

(* ================================================================== *)
(** ** The DOM tree of an XML document *)

Module Dom.

Inductive node :=
| Element (tag : jsstring) (attrs : list (jsstring * jsstring))
          (children : list node)
| Text (data : jsstring)
| Comment (data : jsstring).

(** An element as a selector sees it: the node and the tags of its
    ancestors, nearest first.  Selectors are matched against the whole
    document, so the ancestors above the scoping element count too. *)
Definition located := (list jsstring * node)%type.

Fixpoint textContent (n : node) : jsstring :=
  match n with
  | Element _ _ cs =>
      flat_map (fun c => match c with
                         | Comment _ => []
                         | _ => textContent c
                         end) cs
  | Text d => d
  | Comment d => d
  end.

(** The elements of the subtree at [n], [n] first, in document order. *)
Fixpoint subtree (anc : list jsstring) (n : node) : list located :=
  match n with
  | Element t _ cs => (anc, n) :: flat_map (subtree (t :: anc)) cs
  | _ => []
  end.

(** The element descendants of [n], in document order. *)
Definition descendants (e : located) : list located :=
  match snd e with
  | Element t _ cs => flat_map (subtree (t :: fst e)) cs
  | _ => []
  end.

(** The three shapes of selector the page uses. *)
Inductive selector :=
| ByTag (t : jsstring)                  (* [T] *)
| ByTagAttr (t a v : jsstring)          (* [T[a="v"]] *)
| Within (outer t : jsstring).          (* [Outer T] *)

Fixpoint attr (a : jsstring) (attrs : list (jsstring * jsstring)) : option jsstring :=
  match attrs with
  | [] => None
  | (a', v) :: rest => if JsString.eqb a a' then Some v else attr a rest
  end.

Definition has_tag (t : jsstring) (n : node) : bool :=
  match n with
  | Element t' _ _ => JsString.eqb t t'
  | _ => false
  end.

Definition matches (sel : selector) (e : located) : bool :=
  match sel with
  | ByTag t => has_tag t (snd e)
  | ByTagAttr t a v =>
      has_tag t (snd e) &&
      match snd e with
      | Element _ attrs _ =>
          match attr a attrs with
          | Some v' => JsString.eqb v v'
          | None => false
          end
      | _ => false
      end
  | Within outer t =>
      has_tag t (snd e) && existsb (JsString.eqb outer) (fst e)
  end.

(** [e.querySelectorAll(sel)] and [e.querySelector(sel)]. *)
Definition querySelectorAll (sel : selector) (e : located) : list located :=
  filter (matches sel) (descendants e).

Definition querySelector (sel : selector) (e : located) : option located :=
  hd_error (querySelectorAll sel e).

(** [document.querySelectorAll(sel)]: the root element is a candidate. *)
Definition document_querySelectorAll (sel : selector) (root : node) : list located :=
  filter (matches sel) (subtree [] root).

(** [m] is an element below [n]: what the specification calls a
    sub-element. *)
Inductive sub_element : node -> node -> Prop :=
| sub_child t a cs t' a' cs' :
    In (Element t' a' cs') cs ->
    sub_element (Element t' a' cs') (Element t a cs)
| sub_deeper t a cs c m :
    In c cs -> sub_element m c -> sub_element m (Element t a cs).

(** A sub-element with tag [t] is present below [n]. *)
Definition present (t : jsstring) (n : node) : Prop :=
  exists m, sub_element m n /\ has_tag t m = true.

End Dom.
Import Dom.

(* ================================================================== *)
(** ** Paper records and the record parser (page.tsx, lines 5-14, 56-92) *)

Record Paper := {
  id : jsstring;
  title : jsstring;
  authors : list jsstring;
  abstract : jsstring;
  journal : jsstring;
  year : jsstring;
  pmid : jsstring;
  doi : option jsstring
}.

(** [el?.textContent || dflt]. *)
Definition text_or (el : option located) (dflt : jsstring) : jsstring :=
  match el with
  | Some e => or_else (textContent (snd e)) dflt
  | None => dflt
  end.

(** The body of [authorEls.forEach]: push the display name unless both
    names are empty. *)
Definition push_author (authors : list jsstring) (author : located) : list jsstring :=
  let lastName := text_or (querySelector (ByTag (js "LastName")) author) [] in
  let foreName := text_or (querySelector (ByTag (js "ForeName")) author) [] in
  if nonempty lastName || nonempty foreName
  then authors ++ [trim (foreName ++ js " " ++ lastName)]
  else authors.

(** The array [authors] of one article once the loop is over: what the
    parser has observed, before [slice]. *)
Definition observed_authors (article : located) : list jsstring :=
  fold_left push_author (querySelectorAll (ByTag (js "Author")) article) [].

(** [a.slice(0, n)]. *)
Definition slice0 {A} (n : nat) (a : list A) : list A := firstn n a.

(** The record pushed for one article, if any (lines 80-91). *)
Definition paper_of (article : located) : option Paper :=
  let titleEl := querySelector (ByTag (js "ArticleTitle")) article in
  let abstractEl := querySelector (ByTag (js "AbstractText")) article in
  let journalEl := querySelector (Within (js "Journal") (js "Title")) article in
  let yearEl := querySelector (Within (js "PubDate") (js "Year")) article in
  let pmidEl := querySelector (ByTag (js "PMID")) article in
  let doiEl := querySelector (ByTagAttr (js "ArticleId") (js "IdType") (js "doi")) article in
  let authors := observed_authors article in
  match titleEl, pmidEl with
  | Some titleEl, Some pmidEl =>
      Some {| id := or_else (textContent (snd pmidEl)) [];
              title := or_else (textContent (snd titleEl)) [];
              authors := slice0 5 authors;
              abstract := text_or abstractEl (js "No abstract available");
              journal := text_or journalEl (js "Unknown Journal");
              year := text_or yearEl (js "N/A");
              pmid := or_else (textContent (snd pmidEl)) [];
              doi := match doiEl with
                     | Some d => if nonempty (textContent (snd d))
                                 then Some (textContent (snd d)) else None
                     | None => None
                     end |}
  | _, _ => None
  end.

(** The body of [articles.forEach]. *)
Definition push_paper (parsedPapers : list Paper) (article : located) : list Paper :=
  match paper_of article with
  | Some p => parsedPapers ++ [p]
  | None => parsedPapers
  end.

(** Lines 58-92: [parsedPapers] for a parsed document. *)
Definition parsePapers (xmlDoc : node) : list Paper :=
  fold_left push_paper
    (document_querySelectorAll (ByTag (js "PubmedArticle")) xmlDoc) [].

(* ================================================================== *)
(** ** The component state and its environment *)

Record State := {
  query : jsstring;
  papers : list Paper;
  loading : bool;
  error : jsstring;
  resultCount : number;
  maxResults : jsstring;
  sortBy : jsstring
}.

(** The state of the first render (the [useState] initial values). *)
Definition initial : State :=
  {| query := []; papers := []; loading := false; error := [];
     resultCount := Finite 0; maxResults := js "20"; sortBy := js "relevance" |}.

(** A response of the provider.  [fetch] resolves with it whatever the
    status is; [json_body] and [text_body] are what [response.json()] and
    [response.text()] resolve to, [None] when they reject. *)
Record Response := {
  status : N;
  json_body : option json;
  text_body : option jsstring
}.

(** [response.ok]. *)
Definition ok (r : Response) : bool := (200 <=? status r) && (status r <=? 299).

(** What the page calls outside itself: [fetch] ([None] when the promise
    rejects) and [DOMParser.parseFromString(_, 'text/xml')], which
    returns the root of a document for every input. *)
Record Browser := {
  fetch : jsstring -> option Response;
  parseFromString : jsstring -> node
}.

(** The state threaded through one call of [searchPapers]: the component
    state, the requests issued so far and what went to [console.error]. *)
Record World := {
  ui : State;
  requests : list jsstring;
  console : list exn
}.

Definition M (A : Type) : Type := World -> World * completion A.

Definition ret {A} (a : A) : M A := fun w => (w, Normal a).

Definition bind {A B} (m : M A) (k : A -> M B) : M B :=
  fun w =>
    match m w with
    | (w', Normal a) => k a w'
    | (w', Throw e) => (w', Throw e)
    end.

Definition throw {A} (e : exn) : M A := fun w => (w, Throw e).

Definition lift {A} (c : completion A) : M A := fun w => (w, c).

Definition lift_option {A} (e : exn) (o : option A) : M A :=
  match o with
  | Some a => ret a
  | None => throw e
  end.

(** [try { body } catch (err) { handler } finally { final }]. *)
Definition try_catch_finally (body : M unit) (handler : exn -> M unit)
    (final : M unit) : M unit :=
  fun w =>
    match body w with
    | (w', Normal tt) => final w'
    | (w', Throw e) =>
        match handler e w' with
        | (w'', Normal tt) => final w''
        | (w'', Throw e') =>
            match final w'' with
            | (w3, Normal tt) => (w3, Throw e')
            | (w3, Throw e'') => (w3, Throw e'')
            end
        end
    end.

Declare Scope js_scope.
Delimit Scope js_scope with jsm.
Notation "x <- m ;; k" := (bind m (fun x => k))
  (at level 61, m at next level, right associativity) : js_scope.
Notation "m ;; k" := (bind m (fun _ => k))
  (at level 61, right associativity) : js_scope.

Definition update (f : State -> State) : M unit :=
  fun w => ({| ui := f (ui w); requests := requests w; console := console w |},
            Normal tt).

Definition setLoading (b : bool) : M unit :=
  update (fun s => {| query := query s; papers := papers s; loading := b;
                      error := error s; resultCount := resultCount s;
                      maxResults := maxResults s; sortBy := sortBy s |}).

Definition setError (e : jsstring) : M unit :=
  update (fun s => {| query := query s; papers := papers s; loading := loading s;
                      error := e; resultCount := resultCount s;
                      maxResults := maxResults s; sortBy := sortBy s |}).

Definition setPapers (ps : list Paper) : M unit :=
  update (fun s => {| query := query s; papers := ps; loading := loading s;
                      error := error s; resultCount := resultCount s;
                      maxResults := maxResults s; sortBy := sortBy s |}).

Definition setResultCount (n : number) : M unit :=
  update (fun s => {| query := query s; papers := papers s; loading := loading s;
                      error := error s; resultCount := n;
                      maxResults := maxResults s; sortBy := sortBy s |}).

Definition console_error (e : exn) : M unit :=
  fun w => ({| ui := ui w; requests := requests w; console := console w ++ [e] |},
            Normal tt).

(** [await fetch(url)]: the request is issued, then the promise settles. *)
Definition await_fetch (b : Browser) (url : jsstring) : M Response :=
  fun w => ({| ui := ui w; requests := requests w ++ [url]; console := console w |},
            match fetch b url with
            | Some r => Normal r
            | None => Throw NetworkError
            end).

Definition await_json (r : Response) : M json :=
  lift_option SyntaxError (json_body r).

Definition await_text (r : Response) : M jsstring :=
  lift_option NetworkError (text_body r).

(* ================================================================== *)
(** ** searchPapers (page.tsx, lines 25-101) *)

Local Open Scope js_scope.

(** The fixed part of the search term (line 35), from the blank after
    the user's text on. *)
Definition domain_filter : jsstring :=
  js " AND (drug development[MeSH Terms] OR pharmaceutical development OR drug discovery)".

(** What [encodeURIComponent] makes of it. *)
Definition encoded_domain_filter : jsstring :=
  js "%20AND%20(drug%20development%5BMeSH%20Terms%5D%20OR%20pharmaceutical%20development%20OR%20drug%20discovery)".

Definition esearch_prefix : jsstring :=
  js "https://eutils.ncbi.nlm.nih.gov/entrez/eutils/esearch.fcgi?db=pubmed&term=".

Definition efetch_prefix : jsstring :=
  js "https://eutils.ncbi.nlm.nih.gov/entrez/eutils/efetch.fcgi?db=pubmed&id=".

(** Line 36. *)
Definition searchUrl_of (searchTerm : jsstring) (st : State) : jsstring :=
  esearch_prefix ++ searchTerm ++ js "&retmax=" ++ maxResults st
  ++ js "&retmode=json&sort=" ++ sortBy st.

(** Line 51. *)
Definition fetchUrl_of (joined : jsstring) : jsstring :=
  efetch_prefix ++ joined ++ js "&retmode=xml".

Definition no_results_message : jsstring :=
  js "No research papers found. Try different keywords.".

Definition fetch_error_message : jsstring :=
  js "Failed to fetch research papers. Please try again.".

(** Lines 34-94, the body of the [try].  [st] is the state of the render
    whose closure the handler is. *)
Definition search_body (b : Browser) (st : State) : M unit :=
  searchTerm <- lift_option URIError
                  (encodeURIComponent (query st ++ domain_filter)) ;;
  let searchUrl := searchUrl_of searchTerm st in
  searchResponse <- await_fetch b searchUrl ;;
  searchData <- await_json searchResponse ;;
  esearchresult <- lift (get (Some searchData) (js "esearchresult")) ;;
  if negb (length_truthy (get_opt esearchresult (js "idlist"))) then
    setError no_results_message ;;
    setLoading false
  else
    esearchresult1 <- lift (get (Some searchData) (js "esearchresult")) ;;
    ids <- lift (get esearchresult1 (js "idlist")) ;;
    esearchresult2 <- lift (get (Some searchData) (js "esearchresult")) ;;
    count <- lift (get esearchresult2 (js "count")) ;;
    total <- lift (parseInt_or_0 count) ;;
    setResultCount total ;;
    joined <- lift (array_join ids (js ",")) ;;
    let fetchUrl := fetchUrl_of joined in
    fetchResponse <- await_fetch b fetchUrl ;;
    xmlText <- await_text fetchResponse ;;
    let xmlDoc := parseFromString b xmlText in
    setPapers (parsePapers xmlDoc).

Definition searchPapers (b : Browser) (st : State) : M unit :=
  if negb (nonempty (trim (query st))) then ret tt
  else
    setLoading true ;;
    setError [] ;;
    setPapers [] ;;
    try_catch_finally
      (search_body b st)
      (fun err => setError fetch_error_message ;; console_error err)
      (setLoading false).

(** One submission of the form in state [st]: the world it ends in. *)
Definition submit (b : Browser) (st : State) : World :=
  fst (searchPapers b st {| ui := st; requests := []; console := [] |}).

(* ================================================================== *)
(** ** The view returned by Home (page.tsx, lines 103-213) *)

(** One paper card: the dynamic parts of lines 166-202. *)
Record Card := {
  key : jsstring;
  href : jsstring;
  link_text : jsstring;
  (** the joined names and the marker after them, when the block shows *)
  authors_block : option (jsstring * option jsstring);
  meta_journal : jsstring;
  meta_year : jsstring;
  meta_pmid : jsstring;
  meta_doi : option jsstring;
  abstract_text : jsstring
}.

(** Lines 193-195. *)
Definition render_abstract (a : jsstring) : jsstring :=
  if (400 <? List.length a)%nat then substring0 400 a ++ js "..." else a.

(** Lines 178-183. *)
Definition render_authors (a : list jsstring) : option (jsstring * option jsstring) :=
  if (0 <? List.length a)%nat
  then Some (join (js ", ") a,
             if (List.length a =? 5)%nat then Some (js " et al.") else None)
  else None.

Definition render_card (paper : Paper) : Card :=
  {| key := id paper;
     href := js "https://pubmed.ncbi.nlm.nih.gov/" ++ pmid paper ++ js "/";
     link_text := title paper;
     authors_block := render_authors (authors paper);
     meta_journal := journal paper;
     meta_year := year paper;
     meta_pmid := pmid paper;
     meta_doi := match doi paper with
                 | Some d => if nonempty d then Some d else None
                 | None => None
                 end;
     abstract_text := render_abstract (abstract paper) |}.

(** The whole page.  [stats] is the line [Found N research papers
    (showing k)] as the pair [(N, k)]. *)
Record View := {
  button_disabled : bool;
  button_label : jsstring;
  loading_banner : bool;
  error_box : option jsstring;
  stats : option (number * nat);
  results : list Card;
  no_results_hint : bool
}.

Definition Home (st : State) : View :=
  {| button_disabled := loading st;
     button_label := if loading st then js "Searching..." else js "Search";
     loading_banner := loading st;
     error_box := if nonempty (error st) then Some (error st) else None;
     stats := if positive (resultCount st) && negb (loading st)
              then Some (resultCount st, List.length (papers st)) else None;
     results := if (0 <? List.length (papers st))%nat
                then map render_card (papers st) else [];
     no_results_hint := negb (loading st)
                        && (List.length (papers st) =? 0)%nat
                        && negb (nonempty (error st)) |}.

(** The card carries the [ et al.] marker. *)
Definition has_et_al (c : Card) : bool :=
  match authors_block c with
  | Some (_, Some _) => true
  | _ => false
  end.

(* ================================================================== *)
(** ** Reading the outcome of a submission *)

(** The state a submission settles in: [loading] is off, the query and
    the two selections are untouched. *)
Definition settled (st : State) (err : jsstring) (n : number) (ps : list Paper) : State :=
  {| query := query st; papers := ps; loading := false; error := err;
     resultCount := n; maxResults := maxResults st; sortBy := sortBy st |}.

(** [searchData.esearchresult?.idlist] and [searchData.esearchresult?.count]
    of a search envelope. *)
Definition idlist_of (searchData : json) : value :=
  get_opt (get_opt (Some searchData) (js "esearchresult")) (js "idlist").

Definition count_of (searchData : json) : value :=
  get_opt (get_opt (Some searchData) (js "esearchresult")) (js "count").

(** The search term of line 35 for a state, when it can be encoded. *)
Definition searchTerm_of (st : State) : option jsstring :=
  encodeURIComponent (query st ++ domain_filter).

(** The identifier search resolves to the JSON value [d]. *)
Definition search_reply (b : Browser) (st : State) (d : json) : Prop :=
  exists term r,
    searchTerm_of st = Some term /\
    fetch b (searchUrl_of term st) = Some r /\
    json_body r = Some d.

(** The identifier search gives nothing to read: the term cannot be
    encoded, the fetch rejects, or the body is not JSON. *)
Definition no_search_reply (b : Browser) (st : State) : Prop :=
  searchTerm_of st = None \/
  exists term,
    searchTerm_of st = Some term /\
    (fetch b (searchUrl_of term st) = None \/
     exists r, fetch b (searchUrl_of term st) = Some r /\ json_body r = None).

(** The identifier search gave [d] with identifiers and a count that
    cannot be read: ToString of it throws at line 48. *)
Definition count_unreadable (b : Browser) (st : State) (d : json) : Prop :=
  search_reply b st d /\
  length_truthy (idlist_of d) = true /\
  exists e, parseInt_or_0 (count_of d) = Throw e.

(** The attempt fails at the identifier-search step: there is nothing to
    read, or what was read is null, or its count cannot be read. *)
Definition search_step_fails (b : Browser) (st : State) : Prop :=
  no_search_reply b st \/ search_reply b st JNull \/
  exists d, count_unreadable b st d.

(** The attempt ends at the identifier-search step with no identifier. *)
Definition search_step_empty (b : Browser) (st : State) : Prop :=
  exists d, search_reply b st d /\ d <> JNull /\
            length_truthy (idlist_of d) = false.

(** The identifier search gave [d] with identifiers, and the attempt
    fails after that: the identifiers cannot be joined, the detail fetch
    rejects, or its body cannot be read. *)
Definition detail_step_fails (b : Browser) (st : State) (d : json) : Prop :=
  search_reply b st d /\
  length_truthy (idlist_of d) = true /\
  match array_join (idlist_of d) (js ",") with
  | Throw _ => True
  | Normal joined =>
      fetch b (fetchUrl_of joined) = None \/
      exists r', fetch b (fetchUrl_of joined) = Some r' /\ text_body r' = None
  end.

(** The attempt goes through: the count [n] is stored and the records
    [ps] are parsed from the detail payload. *)
Definition search_succeeds (b : Browser) (st : State) (n : number) (ps : list Paper) : Prop :=
  exists d joined r' xmlText,
    search_reply b st d /\
    length_truthy (idlist_of d) = true /\
    parseInt_or_0 (count_of d) = Normal n /\
    array_join (idlist_of d) (js ",") = Normal joined /\
    fetch b (fetchUrl_of joined) = Some r' /\
    text_body r' = Some xmlText /\
    ps = parsePapers (parseFromString b xmlText).

(** Two browsers that differ at most in the status of their responses. *)
Definition same_but_status (b b' : Browser) : Prop :=
  (forall xmlText, parseFromString b xmlText = parseFromString b' xmlText) /\
  (forall url,
     match fetch b url, fetch b' url with
     | Some r, Some r' =>
         json_body r = json_body r' /\ text_body r = text_body r'
     | None, None => True
     | _, _ => False
     end).

(* ================================================================== *)
(** ** Sample payloads *)

Module Samples.

Definition el (t : string) (cs : list node) : node := Element (js t) [] cs.
Definition txt (s : string) : node := Text (js s).

Definition author (fore last : string) : node :=
  el "Author" [el "LastName" [txt last]; el "ForeName" [txt fore]].

(** An article in the shape of an efetch record, with the given authors
    and no abstract. *)
Definition article_with (authorList : list node) : located :=
  ([js "PubmedArticleSet"],
   el "PubmedArticle"
     [el "MedlineCitation"
        [el "PMID" [txt "31452104"];
         el "Article"
           [el "Journal"
              [el "JournalIssue" [el "PubDate" [el "Year" [txt "2019"]]];
               el "Title" [txt "Nature"]];
            el "ArticleTitle" [txt "Aspirin revisited"];
            el "AuthorList" authorList]]]).

Definition two_authors : located :=
  article_with [author "Ada" "Lovelace"; author "Alan" "Turing"].

Definition six_authors : located :=
  article_with [author "A" "One"; author "B" "Two"; author "C" "Three";
                author "D" "Four"; author "E" "Five"; author "F" "Six"].

(** An article with an identifier and no title. *)
Definition untitled : located :=
  ([js "PubmedArticleSet"],
   el "PubmedArticle" [el "MedlineCitation" [el "PMID" [txt "7"]]]).

Definition two_authors_paper : Paper :=
  {| id := js "31452104";
     title := js "Aspirin revisited";
     authors := [js "Ada Lovelace"; js "Alan Turing"];
     abstract := js "No abstract available";
     journal := js "Nature";
     year := js "2019";
     pmid := js "31452104";
     doi := None |}.

Definition six_authors_paper : Paper :=
  {| id := js "31452104";
     title := js "Aspirin revisited";
     authors := [js "A One"; js "B Two"; js "C Three"; js "D Four"; js "E Five"];
     abstract := js "No abstract available";
     journal := js "Nature";
     year := js "2019";
     pmid := js "31452104";
     doi := None |}.

Definition article_set : node :=
  el "PubmedArticleSet" [snd two_authors; snd untitled; snd six_authors].

End Samples.

(* ================================================================== *)
(** ** Sample providers *)

Module Scenarios.

Import Samples.

(** The first render, with [aspirin] typed in. *)
Definition aspirin : State :=
  {| query := js "aspirin"; papers := []; loading := false; error := [];
     resultCount := Finite 0; maxResults := js "20"; sortBy := js "relevance" |}.

Definition aspirin_term : jsstring :=
  js "aspirin%20AND%20(drug%20development%5BMeSH%20Terms%5D%20OR%20pharmaceutical%20development%20OR%20drug%20discovery)".

Definition aspirin_url : jsstring :=
  js "https://eutils.ncbi.nlm.nih.gov/entrez/eutils/esearch.fcgi?db=pubmed&term=aspirin%20AND%20(drug%20development%5BMeSH%20Terms%5D%20OR%20pharmaceutical%20development%20OR%20drug%20discovery)&retmax=20&retmode=json&sort=relevance".

Definition detail_url : jsstring :=
  js "https://eutils.ncbi.nlm.nih.gov/entrez/eutils/efetch.fcgi?db=pubmed&id=7&retmode=xml".

(** A query that is one unpaired high surrogate. *)
Definition lone_surrogate : State :=
  {| query := [0xD83D]; papers := []; loading := false; error := [];
     resultCount := Finite 0; maxResults := js "20"; sortBy := js "relevance" |}.

Definition envelope (count : string) (ids : list string) : json :=
  JObj [(js "header", JObj [(js "type", JStr (js "esearch"))]);
        (js "esearchresult",
         JObj [(js "count", JStr (js count));
               (js "idlist", JArr (map (fun i => JStr (js i)) ids))])].

Definition json_reply (code : N) (d : json) : Response :=
  {| status := code; json_body := Some d; text_body := None |}.

Definition text_reply (code : N) (t : string) : Response :=
  {| status := code; json_body := None; text_body := Some (js t) |}.

Definition detail_payload : string :=
  "<PubmedArticleSet><PubmedArticle><MedlineCitation><PMID>7</PMID><Article><ArticleTitle>Willow bark</ArticleTitle></Article></MedlineCitation></PubmedArticle></PubmedArticleSet>".

Definition detail_document : node :=
  el "PubmedArticleSet"
    [el "PubmedArticle"
       [el "MedlineCitation"
          [el "PMID" [txt "7"];
           el "Article" [el "ArticleTitle" [txt "Willow bark"]]]]].

Definition error_payload : string := "<ERROR>Backend failure</ERROR>".

Definition error_document : node := el "ERROR" [txt "Backend failure"].

(** The DOMParser on the payloads of the scenarios; any other text is
    answered with an error document. *)
Definition dom_parser (xmlText : jsstring) : node :=
  if JsString.eqb xmlText (js detail_payload) then detail_document
  else if JsString.eqb xmlText (js error_payload) then error_document
  else el "parsererror" [].

(** A provider that answers the search of [aspirin] with [search] and
    the detail fetch for identifier 7 with [detail]. *)
Definition provider (search detail : option Response) : Browser :=
  {| fetch := fun url =>
       if JsString.eqb url aspirin_url then search
       else if JsString.eqb url detail_url then detail
       else None;
     parseFromString := dom_parser |}.

Definition healthy : Browser :=
  provider (Some (json_reply 200 (envelope "3" ["7"%string])))
           (Some (text_reply 200 detail_payload)).

Definition no_hits : Browser :=
  provider (Some (json_reply 200 (envelope "0" []))) None.

Definition offline : Browser := provider None None.

(** The search succeeds, the detail fetch rejects. *)
Definition detail_down : Browser :=
  provider (Some (json_reply 200 (envelope "42" ["7"%string]))) None.

(** The search succeeds, the detail fetch is answered with status 500. *)
Definition detail_500 : Browser :=
  provider (Some (json_reply 200 (envelope "42" ["7"%string])))
           (Some (text_reply 500 error_payload)).

(** The search is answered with status 429 and a JSON error body. *)
Definition rate_limited : Browser :=
  provider (Some (json_reply 429
                    (JObj [(js "error", JStr (js "API rate limit exceeded"))])))
           None.

Definition willow_paper : Paper :=
  {| id := js "7"; title := js "Willow bark"; authors := [];
     abstract := js "No abstract available"; journal := js "Unknown Journal";
     year := js "N/A"; pmid := js "7"; doi := None |}.

(** A query of three blanks. *)
Definition blank : State :=
  {| query := js "   "; papers := [willow_paper]; loading := false;
     error := []; resultCount := Finite 3; maxResults := js "20";
     sortBy := js "relevance" |}.

(** The state after a successful search of [aspirin]. *)
Definition after_success : State := ui (submit healthy aspirin).

End Scenarios.

(* ================================================================== *)
(** ** Reading the parser's loops *)

(** The two names the author loop reads (lines 73-74). *)
Definition lastName_of (author : located) : jsstring :=
  text_or (querySelector (ByTag (js "LastName")) author) [].

Definition foreName_of (author : located) : jsstring :=
  text_or (querySelector (ByTag (js "ForeName")) author) [].

(** The test of line 75 and the name pushed at line 76. *)
Definition named (author : located) : bool :=
  nonempty (lastName_of author) || nonempty (foreName_of author).

Definition display_name (author : located) : jsstring :=
  trim (foreName_of author ++ js " " ++ lastName_of author).

(** No white space at either end. *)
Definition trimmed (s : jsstring) : Prop :=
  match s with [] => True | c :: _ => is_white_space c = false end /\
  match rev s with [] => True | c :: _ => is_white_space c = false end.

(* ================================================================== *)
(** ** The ways one call of searchPapers can go *)

(** The world a submission of a query that is not blank ends in, path by
    path through lines 33-100. *)
Inductive outcome (b : Browser) (st : State) : World -> Prop :=
| out_uri_error :
    searchTerm_of st = None ->
    outcome b st
      {| ui := settled st fetch_error_message (resultCount st) [];
         requests := []; console := [URIError] |}
| out_search_rejected term :
    searchTerm_of st = Some term ->
    fetch b (searchUrl_of term st) = None ->
    outcome b st
      {| ui := settled st fetch_error_message (resultCount st) [];
         requests := [searchUrl_of term st]; console := [NetworkError] |}
| out_json_rejected term r :
    searchTerm_of st = Some term ->
    fetch b (searchUrl_of term st) = Some r ->
    json_body r = None ->
    outcome b st
      {| ui := settled st fetch_error_message (resultCount st) [];
         requests := [searchUrl_of term st]; console := [SyntaxError] |}
| out_json_null term r :
    searchTerm_of st = Some term ->
    fetch b (searchUrl_of term st) = Some r ->
    json_body r = Some JNull ->
    outcome b st
      {| ui := settled st fetch_error_message (resultCount st) [];
         requests := [searchUrl_of term st]; console := [TypeError] |}
| out_no_identifiers term r d :
    searchTerm_of st = Some term ->
    fetch b (searchUrl_of term st) = Some r ->
    json_body r = Some d ->
    d <> JNull ->
    length_truthy (idlist_of d) = false ->
    outcome b st
      {| ui := settled st no_results_message (resultCount st) [];
         requests := [searchUrl_of term st]; console := [] |}
| out_count_failed term r d e :
    searchTerm_of st = Some term ->
    fetch b (searchUrl_of term st) = Some r ->
    json_body r = Some d ->
    length_truthy (idlist_of d) = true ->
    parseInt_or_0 (count_of d) = Throw e ->
    outcome b st
      {| ui := settled st fetch_error_message (resultCount st) [];
         requests := [searchUrl_of term st]; console := [e] |}
| out_join_failed term r d n e :
    searchTerm_of st = Some term ->
    fetch b (searchUrl_of term st) = Some r ->
    json_body r = Some d ->
    length_truthy (idlist_of d) = true ->
    parseInt_or_0 (count_of d) = Normal n ->
    array_join (idlist_of d) (js ",") = Throw e ->
    outcome b st
      {| ui := settled st fetch_error_message n [];
         requests := [searchUrl_of term st]; console := [e] |}
| out_detail_rejected term r d n joined :
    searchTerm_of st = Some term ->
    fetch b (searchUrl_of term st) = Some r ->
    json_body r = Some d ->
    length_truthy (idlist_of d) = true ->
    parseInt_or_0 (count_of d) = Normal n ->
    array_join (idlist_of d) (js ",") = Normal joined ->
    fetch b (fetchUrl_of joined) = None ->
    outcome b st
      {| ui := settled st fetch_error_message n [];
         requests := [searchUrl_of term st; fetchUrl_of joined];
         console := [NetworkError] |}
| out_text_rejected term r d n joined r' :
    searchTerm_of st = Some term ->
    fetch b (searchUrl_of term st) = Some r ->
    json_body r = Some d ->
    length_truthy (idlist_of d) = true ->
    parseInt_or_0 (count_of d) = Normal n ->
    array_join (idlist_of d) (js ",") = Normal joined ->
    fetch b (fetchUrl_of joined) = Some r' ->
    text_body r' = None ->
    outcome b st
      {| ui := settled st fetch_error_message n [];
         requests := [searchUrl_of term st; fetchUrl_of joined];
         console := [NetworkError] |}
| out_success term r d n joined r' xmlText :
    searchTerm_of st = Some term ->
    fetch b (searchUrl_of term st) = Some r ->
    json_body r = Some d ->
    length_truthy (idlist_of d) = true ->
    parseInt_or_0 (count_of d) = Normal n ->
    array_join (idlist_of d) (js ",") = Normal joined ->
    fetch b (fetchUrl_of joined) = Some r' ->
    text_body r' = Some xmlText ->
    outcome b st
      {| ui := settled st [] n (parsePapers (parseFromString b xmlText));
         requests := [searchUrl_of term st; fetchUrl_of joined];
         console := [] |}.

(* ================================================================== *)
(** ** Reading numbers and encoded text *)

Definition is_decimal_digit (c : code_unit) : bool :=
  (0x30 <=? c) && (c <=? 0x39).

(** The number a string of decimal digits writes. *)
Definition decimal_value (s : jsstring) : N :=
  fold_left (fun acc c => 10 * acc + (c - 0x30)) s 0.

Definition is_upper_hex (c : code_unit) : bool :=
  ((0x30 <=? c) && (c <=? 0x39)) || ((0x41 <=? c) && (c <=? 0x46)).

(** A string made of unreserved characters and of escapes [%XX] with two
    upper-case hexadecimal digits. *)
Inductive escaped : jsstring -> Prop :=
| escaped_nil : escaped []
| escaped_plain c s :
    is_unreserved c = true -> escaped s -> escaped (c :: s)
| escaped_octet h l s :
    is_upper_hex h = true -> is_upper_hex l = true -> escaped s ->
    escaped (0x25 :: h :: l :: s).

(* ================================================================== *)
(** ** The inputs of the form (page.tsx, lines 111-148) *)

Definition setQuery (q : jsstring) : M unit :=
  update (fun s => {| query := q; papers := papers s; loading := loading s;
                      error := error s; resultCount := resultCount s;
                      maxResults := maxResults s; sortBy := sortBy s |}).

Definition setMaxResults (v : jsstring) : M unit :=
  update (fun s => {| query := query s; papers := papers s; loading := loading s;
                      error := error s; resultCount := resultCount s;
                      maxResults := v; sortBy := sortBy s |}).

Definition setSortBy (v : jsstring) : M unit :=
  update (fun s => {| query := query s; papers := papers s; loading := loading s;
                      error := error s; resultCount := resultCount s;
                      maxResults := maxResults s; sortBy := v |}).

(** The options of the two selects (lines 132-135 and 146-147) and
    their [value] attributes. *)
Inductive page_size := Ten | Twenty | Fifty | Hundred.

Definition page_size_value (v : page_size) : jsstring :=
  match v with
  | Ten => js "10"
  | Twenty => js "20"
  | Fifty => js "50"
  | Hundred => js "100"
  end.

Inductive sort_order := Relevance | PublicationDate.

Definition sort_order_value (v : sort_order) : jsstring :=
  match v with
  | Relevance => js "relevance"
  | PublicationDate => js "pub_date"
  end.

(** What the user can do: type in the text input (line 117), pick an
    option of either select (lines 130 and 144), submit the form
    (line 111) while the browser and the provider behave as [b]. *)
Inductive event :=
| QueryTyped (value : jsstring)
| PageSizeChosen (v : page_size)
| SortChosen (v : sort_order)
| FormSubmitted (b : Browser).

(** The state once a handler that awaits nothing has run. *)
Definition after (st : State) (m : M unit) : State :=
  ui (fst (m {| ui := st; requests := []; console := [] |})).

(** One event, handled to its end: a submission has settled before the
    next event comes. *)
Definition handle (st : State) (e : event) : State :=
  match e with
  | QueryTyped value => after st (setQuery value)
  | PageSizeChosen v => after st (setMaxResults (page_size_value v))
  | SortChosen v => after st (setSortBy (sort_order_value v))
  | FormSubmitted b => ui (submit b st)
  end.

(** The state after a sequence of events from the first render. *)
Definition session (events : list event) : State :=
  fold_left handle events initial.

(** What every record of the parser satisfies. *)
Definition paper_ok (p : Paper) : Prop :=
  id p = pmid p /\ (List.length (authors p) <= 5)%nat /\
  abstract p <> [] /\ journal p <> [] /\ year p <> [] /\ doi p <> Some [].

(** What holds of the state between two events. *)
Definition at_rest (st : State) : Prop :=
  loading st = false /\
  (exists v, maxResults st = page_size_value v) /\
  (exists v, sortBy st = sort_order_value v) /\
  (error st = [] \/ error st = no_results_message \/
   error st = fetch_error_message) /\
  (papers st = [] \/ error st = []) /\
  Forall paper_ok (papers st).

(* ================================================================== *)
(** ** Comma-separated lists and further samples *)

(** [s] is the strings of the list, in order, with one comma between
    neighbours. *)
Inductive comma_separated : list jsstring -> jsstring -> Prop :=
| comma_one a : comma_separated [a] a
| comma_more a rest s :
    comma_separated rest s -> comma_separated (a :: rest) (a ++ 0x2C :: s).

Module LongAbstract.

(** An abstract of 415 code units: a heading, 400 letters, an end mark. *)
Definition text : jsstring := js "Background: " ++ repeat 0x61 400 ++ js "END".

Definition article : located :=
  ([js "PubmedArticleSet"],
   Samples.el "PubmedArticle"
     [Samples.el "MedlineCitation"
        [Samples.el "PMID" [Samples.txt "11"];
         Samples.el "Article"
           [Samples.el "ArticleTitle" [Samples.txt "Long"];
            Samples.el "Abstract" [Element (js "AbstractText") [] [Text text]]]]]).

Definition paper : Paper :=
  {| id := js "11"; title := js "Long"; authors := [];
     abstract := text; journal := js "Unknown Journal";
     year := js "N/A"; pmid := js "11"; doi := None |}.

End LongAbstract.

(** The search of [aspirin] answered with two identifiers; no answer to
    the detail fetch. *)
Definition two_hits : Browser :=
  Scenarios.provider
    (Some (Scenarios.json_reply 200
             (Scenarios.envelope "2" ["7"%string; "9"%string])))
    None.

(* ================================================================== *)
(** * Properties *)

Local Close Scope js_scope.

(** ** Strings *)

Example encode_reserved :
  encodeURIComponent (js "a b[c]&d") = Some (js "a%20b%5Bc%5D%26d").
Proof. reflexivity. Qed.

Example encode_two_octets : encodeURIComponent [0xE9] = Some (js "%C3%A9").
Proof. reflexivity. Qed.

Example encode_surrogate_pair :
  encodeURIComponent [0xD83D; 0xDC8A] = Some (js "%F0%9F%92%8A").
Proof. reflexivity. Qed.

Example encode_unpaired : encodeURIComponent [0xD83D; 0x20] = None.
Proof. reflexivity. Qed.

Example trim_both_ends : trim (js "  a b  ") = js "a b".
Proof. reflexivity. Qed.

Lemma eqb_eq (a b : jsstring) : JsString.eqb a b = true <-> a = b.
Proof.
  revert b; induction a as [|x a IH]; intros [|y b]; simpl;
    try (split; [discriminate | discriminate]); try tauto.
  rewrite andb_true_iff, N.eqb_eq, IH.
  split; [intros [-> ->]; reflexivity | intros H; injection H; auto].
Qed.

Lemma eqb_refl (a : jsstring) : JsString.eqb a a = true.
Proof. apply eqb_eq; reflexivity. Qed.

Lemma trimStart_blank (s : jsstring) :
  trimStart s = [] <-> forallb is_white_space s = true.
Proof.
  induction s as [|c s IH]; simpl; [tauto|].
  destruct (is_white_space c); simpl; [exact IH | split; discriminate].
Qed.

Lemma trimStart_head (s : jsstring) c r :
  trimStart s = c :: r -> is_white_space c = false.
Proof.
  induction s as [|x s IH]; simpl; [discriminate|].
  destruct (is_white_space x) eqn:E; [exact IH|].
  intros H; injection H as -> _; exact E.
Qed.

(** [!query.trim()] holds exactly on the strings made of white space. *)
Lemma trim_blank (s : jsstring) :
  trim s = [] <-> forallb is_white_space s = true.
Proof.
  rewrite <- trimStart_blank. unfold trim, trimEnd.
  split.
  - intros H. destruct (trimStart s) as [|c r] eqn:E; [reflexivity|].
    apply trimStart_head in E.
    assert (H' : trimStart (rev (c :: r)) = []).
    { rewrite <- (rev_involutive (trimStart _)), H; reflexivity. }
    apply trimStart_blank in H'. rewrite forallb_forall in H'.
    specialize (H' c). rewrite <- in_rev in H'.
    rewrite H' in E by (left; reflexivity). discriminate.
  - intros ->; reflexivity.
Qed.

Lemma nonempty_false (s : jsstring) : nonempty s = false <-> s = [].
Proof. destruct s; simpl; split; congruence. Qed.

Lemma or_else_nil (s : jsstring) : or_else s [] = s.
Proof. destruct s; reflexivity. Qed.

(** Encoding goes code point by code point, so it distributes over a
    concatenation whose left part is encodable. *)
Lemma encode_app_len (n : nat) : forall a b ea,
  (List.length a <= n)%nat ->
  encodeURIComponent a = Some ea ->
  encodeURIComponent (a ++ b) = option_map (app ea) (encodeURIComponent b).
Proof.
  induction n as [|n IH]; intros a b ea Hn Ha.
  - destruct a; [|simpl in Hn; lia]. simpl in Ha. injection Ha as <-.
    simpl. destruct (encodeURIComponent b); reflexivity.
  - destruct a as [|c rest].
    { simpl in Ha. injection Ha as <-.
      simpl. destruct (encodeURIComponent b); reflexivity. }
    simpl in Hn. simpl in Ha |- *.
    destruct (is_unreserved c).
    { destruct (encodeURIComponent rest) as [er|] eqn:Er; [|discriminate].
      injection Ha as <-. rewrite (IH rest b er) by (auto; lia).
      destruct (encodeURIComponent b); reflexivity. }
    destruct (is_high_surrogate c).
    { destruct rest as [|d rest']; [discriminate|]. simpl.
      destruct (is_low_surrogate d); [|discriminate].
      destruct (encodeURIComponent rest') as [er|] eqn:Er; [|discriminate].
      injection Ha as <-. simpl in Hn.
      rewrite (IH rest' b er) by (auto; lia).
      destruct (encodeURIComponent b); simpl; [|reflexivity].
      rewrite app_assoc; reflexivity. }
    destruct (is_low_surrogate c); [discriminate|].
    destruct (encodeURIComponent rest) as [er|] eqn:Er; [|discriminate].
    injection Ha as <-. rewrite (IH rest b er) by (auto; lia).
    destruct (encodeURIComponent b); simpl; [|reflexivity].
    rewrite app_assoc; reflexivity.
Qed.

Lemma encode_app (a b ea : jsstring) :
  encodeURIComponent a = Some ea ->
  encodeURIComponent (a ++ b) = option_map (app ea) (encodeURIComponent b).
Proof. apply (encode_app_len (List.length a)); lia. Qed.

(** [encodeURIComponent] throws exactly on the ill-formed strings. *)
Lemma encode_wf_len (n : nat) : forall s,
  (List.length s <= n)%nat ->
  (isWellFormed s = true -> exists e, encodeURIComponent s = Some e) /\
  (isWellFormed s = false -> encodeURIComponent s = None).
Proof.
  induction n as [|n IH]; intros s Hn.
  - destruct s; [|simpl in Hn; lia]. simpl. split; [eauto | discriminate].
  - destruct s as [|c rest]; [simpl; split; [eauto | discriminate]|].
    simpl in Hn. simpl.
    destruct (is_unreserved c) eqn:Eu.
    { assert (Hs : is_high_surrogate c = false /\ is_low_surrogate c = false).
      { unfold is_unreserved, is_high_surrogate, is_low_surrogate in *.
        split; apply andb_false_iff;
          repeat (apply orb_true_iff in Eu; destruct Eu as [Eu|Eu]);
          repeat match goal with
                 | H : _ && _ = true |- _ => apply andb_true_iff in H; destruct H
                 | H : (_ <=? _) = true |- _ => apply N.leb_le in H
                 | H : (_ =? _) = true |- _ => apply N.eqb_eq in H
                 end;
          rewrite !N.leb_gt; lia. }
      destruct Hs as [-> ->].
      destruct (IH rest ltac:(lia)) as [H1 H2]. split.
      - intros W. destruct (H1 W) as [e ->]. simpl; eauto.
      - intros W. rewrite (H2 W). reflexivity. }
    destruct (is_high_surrogate c).
    { destruct rest as [|d rest']; [split; [discriminate | reflexivity]|].
      simpl in Hn. destruct (is_low_surrogate d); simpl;
        [|split; [discriminate | reflexivity]].
      destruct (IH rest' ltac:(lia)) as [H1 H2]. split.
      - intros W. destruct (H1 W) as [e ->]. simpl; eauto.
      - intros W. rewrite (H2 W). reflexivity. }
    destruct (is_low_surrogate c); [split; [discriminate | reflexivity]|].
    destruct (IH rest ltac:(lia)) as [H1 H2]. split.
    + intros W. destruct (H1 W) as [e ->]. simpl; eauto.
    + intros W. rewrite (H2 W). reflexivity.
Qed.

Lemma encode_wellformed (s : jsstring) :
  isWellFormed s = true -> exists e, encodeURIComponent s = Some e.
Proof. apply (encode_wf_len (List.length s) s); lia. Qed.

Lemma encode_illformed (s : jsstring) :
  isWellFormed s = false -> encodeURIComponent s = None.
Proof. apply (encode_wf_len (List.length s) s); lia. Qed.

(** Nothing in an encoded string is an ampersand, so in the search URL
    the term parameter ends where [&retmax=] begins. *)
Lemma hex_digit_not_amp (d : N) : hex_digit d <> 0x26.
Proof.
  unfold hex_digit. destruct (N.ltb_spec d 10); lia.
Qed.

Lemma percent_all_not_amp (octets : list N) :
  Forall (fun c => c <> 0x26) (percent_all octets).
Proof.
  induction octets as [|o octets IH]; simpl; [constructor|].
  repeat constructor; try apply hex_digit_not_amp; [lia | exact IH].
Qed.

Lemma unreserved_not_amp (c : code_unit) : is_unreserved c = true -> c <> 0x26.
Proof. intros H ->. discriminate. Qed.

Lemma encode_not_amp_len (n : nat) : forall s e,
  (List.length s <= n)%nat ->
  encodeURIComponent s = Some e ->
  Forall (fun c => c <> 0x26) e.
Proof.
  induction n as [|n IH]; intros s e Hn Hs.
  - destruct s; [|simpl in Hn; lia]. injection Hs as <-. constructor.
  - destruct s as [|c rest]; [injection Hs as <-; constructor|].
    simpl in Hn, Hs.
    destruct (is_unreserved c) eqn:Eu.
    { destruct (encodeURIComponent rest) as [er|] eqn:Er; [|discriminate].
      injection Hs as <-. constructor; [apply unreserved_not_amp; exact Eu|].
      apply (IH rest); [lia | exact Er]. }
    destruct (is_high_surrogate c).
    { destruct rest as [|d rest']; [discriminate|].
      destruct (is_low_surrogate d); [|discriminate].
      destruct (encodeURIComponent rest') as [er|] eqn:Er; [|discriminate].
      injection Hs as <-. apply Forall_app. split; [apply percent_all_not_amp|].
      apply (IH rest'); [simpl in Hn; lia | exact Er]. }
    destruct (is_low_surrogate c); [discriminate|].
    destruct (encodeURIComponent rest) as [er|] eqn:Er; [|discriminate].
    injection Hs as <-. apply Forall_app. split; [apply percent_all_not_amp|].
    apply (IH rest); [lia | exact Er].
Qed.

Lemma encode_not_amp (s e : jsstring) :
  encodeURIComponent s = Some e -> Forall (fun c => c <> 0x26) e.
Proof. apply (encode_not_amp_len (List.length s)); lia. Qed.

(** ** The DOM: sub-elements and selectors *)

(** Induction on a node with the hypothesis on every child. *)
Lemma node_rect_children (P : node -> Prop) :
  (forall t a cs, Forall P cs -> P (Element t a cs)) ->
  (forall d, P (Text d)) ->
  (forall d, P (Comment d)) ->
  forall n, P n.
Proof.
  intros HE HT HC. fix IH 1. intros [t a cs|d|d]; [|apply HT|apply HC].
  apply HE. induction cs as [|c cs IHcs]; constructor; [apply IH | exact IHcs].
Qed.

Lemma subtree_sound (n : node) : forall anc a m,
  In (a, m) (subtree anc n) -> m = n \/ sub_element m n.
Proof.
  induction n as [t at_ cs IH| |] using node_rect_children;
    intros anc a m Hin; simpl in Hin; try contradiction.
  destruct Hin as [Heq|Hin]; [left; congruence|]. right.
  apply in_flat_map in Hin. destruct Hin as [c [Hc Hin]].
  rewrite Forall_forall in IH.
  destruct (IH c Hc _ _ _ Hin) as [->|Hsub].
  - destruct c; simpl in Hin; try contradiction.
    apply sub_child; exact Hc.
  - eapply sub_deeper; eauto.
Qed.

Lemma subtree_complete (m n : node) :
  sub_element m n -> forall anc, exists a, In (a, m) (subtree anc n).
Proof.
  induction 1 as [t a cs t' a' cs' Hin | t a cs c m Hin Hsub IH]; intros anc.
  - exists (t :: anc). simpl. right. apply in_flat_map.
    exists (Element t' a' cs'). split; [exact Hin | simpl; left; reflexivity].
  - destruct (IH (t :: anc)) as [a0 Ha0]. exists a0. simpl. right.
    apply in_flat_map. exists c. split; assumption.
Qed.

Lemma descendants_sound (e : located) a m :
  In (a, m) (descendants e) -> sub_element m (snd e).
Proof.
  destruct e as [anc n]. unfold descendants. simpl.
  destruct n as [t at_ cs| |]; try contradiction.
  intros Hin. apply in_flat_map in Hin. destruct Hin as [c [Hc Hin]].
  destruct (subtree_sound _ _ _ _ Hin) as [->|Hsub].
  - destruct c; simpl in Hin; try contradiction. apply sub_child; exact Hc.
  - eapply sub_deeper; eauto.
Qed.

Lemma descendants_complete (e : located) m :
  sub_element m (snd e) -> exists a, In (a, m) (descendants e).
Proof.
  destruct e as [anc n]. simpl. intros Hsub.
  destruct (subtree_complete _ _ Hsub anc) as [a Ha].
  inversion Hsub; subst; simpl in Ha; unfold descendants; simpl.
  - destruct Ha as [Heq|Ha]; [|eauto].
    exists (t :: anc). apply in_flat_map.
    exists (Element t' a' cs'). split; [assumption | simpl; left; reflexivity].
  - destruct Ha as [Heq|Ha]; [|eauto].
    injection Heq as _ <-.
    destruct (subtree_complete _ _ H0 (t :: anc)) as [a1 Ha1].
    exists a1. apply in_flat_map. exists c. split; assumption.
Qed.

Lemma hd_error_filter_none {A} (f : A -> bool) (l : list A) :
  hd_error (filter f l) = None <-> forall x, In x l -> f x = false.
Proof.
  induction l as [|y l IH]; simpl; [split; [contradiction | reflexivity]|].
  destruct (f y) eqn:E; simpl.
  - split; [discriminate|]. intros H. rewrite (H y) in E by auto. discriminate.
  - rewrite IH. split.
    + intros H x [->|Hx]; auto.
    + intros H x Hx; apply H; auto.
Qed.

Lemma hd_error_filter_some {A} (f : A -> bool) (l : list A) x :
  hd_error (filter f l) = Some x -> In x l /\ f x = true.
Proof.
  intros H. assert (Hin : In x (filter f l)).
  { destruct (filter f l); simpl in H; [discriminate|].
    injection H as ->. left; reflexivity. }
  apply filter_In in Hin. exact Hin.
Qed.

(** [querySelector] with a tag selector finds an element exactly when a
    sub-element with that tag is present, and what it finds is one. *)
Lemma querySelector_tag_present (t : jsstring) (e : located) :
  (exists el, querySelector (ByTag t) e = Some el) <-> present t (snd e).
Proof.
  unfold querySelector, querySelectorAll. split.
  - intros [[a m] H]. apply hd_error_filter_some in H. destruct H as [Hin Hm].
    exists m. split; [eapply descendants_sound; eauto | exact Hm].
  - intros [m [Hsub Hm]].
    destruct (hd_error (filter (matches (ByTag t)) (descendants e))) eqn:E;
      [eauto|].
    rewrite hd_error_filter_none in E.
    destruct (descendants_complete e m Hsub) as [a Ha].
    specialize (E _ Ha). simpl in E. congruence.
Qed.

Lemma querySelector_tag_absent (t : jsstring) (e : located) :
  querySelector (ByTag t) e = None <-> ~ present t (snd e).
Proof.
  rewrite <- querySelector_tag_present. split.
  - intros H [el Hel]; congruence.
  - intros H. destruct (querySelector (ByTag t) e); [|reflexivity].
    exfalso; apply H; eauto.
Qed.

(** ** The record parser *)

Lemma fold_push_paper (articles : list located) : forall acc,
  fold_left push_paper articles acc =
  acc ++ flat_map (fun a => match paper_of a with
                            | Some p => [p]
                            | None => []
                            end) articles.
Proof.
  induction articles as [|a articles IH]; intros acc; simpl.
  - rewrite app_nil_r; reflexivity.
  - rewrite IH. unfold push_paper.
    destruct (paper_of a); [rewrite <- app_assoc|]; reflexivity.
Qed.

Lemma parsePapers_flat_map (xmlDoc : node) :
  parsePapers xmlDoc =
  flat_map (fun a => match paper_of a with
                     | Some p => [p]
                     | None => []
                     end)
           (document_querySelectorAll (ByTag (js "PubmedArticle")) xmlDoc).
Proof. unfold parsePapers. rewrite fold_push_paper. reflexivity. Qed.

Lemma parsePapers_origin (xmlDoc : node) (p : Paper) :
  In p (parsePapers xmlDoc) ->
  exists article,
    In article (document_querySelectorAll (ByTag (js "PubmedArticle")) xmlDoc)
    /\ paper_of article = Some p.
Proof.
  rewrite parsePapers_flat_map, in_flat_map. intros [a [Ha Hp]].
  exists a. split; [exact Ha|].
  destruct (paper_of a); simpl in Hp; [|contradiction].
  destruct Hp as [->|[]]; reflexivity.
Qed.

Lemma paper_of_some (article : located) (p : Paper) :
  paper_of article = Some p ->
  exists titleEl pmidEl,
    querySelector (ByTag (js "ArticleTitle")) article = Some titleEl /\
    querySelector (ByTag (js "PMID")) article = Some pmidEl /\
    id p = textContent (snd pmidEl) /\
    pmid p = textContent (snd pmidEl) /\
    title p = textContent (snd titleEl) /\
    authors p = slice0 5 (observed_authors article) /\
    abstract p = text_or (querySelector (ByTag (js "AbstractText")) article)
                         (js "No abstract available").
Proof.
  unfold paper_of.
  destruct (querySelector (ByTag (js "ArticleTitle")) article) as [t|];
    [|discriminate].
  destruct (querySelector (ByTag (js "PMID")) article) as [m|]; [|discriminate].
  intros H; injection H as <-. exists t, m. simpl.
  rewrite !or_else_nil. repeat split; reflexivity.
Qed.

Example paper_of_two_authors :
  paper_of Samples.two_authors = Some Samples.two_authors_paper.
Proof. reflexivity. Qed.

Example paper_of_untitled : paper_of Samples.untitled = None.
Proof. reflexivity. Qed.

Example parse_article_set :
  parsePapers Samples.article_set =
  [Samples.two_authors_paper; Samples.six_authors_paper].
Proof. reflexivity. Qed.

(** C1. For every article node the parser makes a Paper record exactly
    when a title sub-element and a PMID sub-element are both present; an
    article lacking either leaves the output as it was (the parser is a
    total function: nothing is thrown); and the records of a document are
    those of its articles that have both. *)
Theorem C1_record_iff_title_and_pmid :
  (forall article : located,
     (exists p, paper_of article = Some p) <->
     present (js "ArticleTitle") (snd article) /\
     present (js "PMID") (snd article)) /\
  (forall (article : located) (parsedPapers : list Paper),
     ~ (present (js "ArticleTitle") (snd article) /\
        present (js "PMID") (snd article)) ->
     push_paper parsedPapers article = parsedPapers) /\
  (forall (xmlDoc : node) (p : Paper),
     In p (parsePapers xmlDoc) <->
     exists article,
       In article (document_querySelectorAll (ByTag (js "PubmedArticle")) xmlDoc)
       /\ paper_of article = Some p).
Proof.
  assert (H1 : forall article : located,
     (exists p, paper_of article = Some p) <->
     present (js "ArticleTitle") (snd article) /\
     present (js "PMID") (snd article)).
  { intros article. rewrite <- !querySelector_tag_present. split.
    - intros [p Hp]. apply paper_of_some in Hp.
      destruct Hp as [t [m [Ht [Hm _]]]]. eauto.
    - intros [[t Ht] [m Hm]]. unfold paper_of. rewrite Ht, Hm. eauto. }
  split; [exact H1|]. split.
  - intros article parsedPapers Hno. unfold push_paper.
    destruct (paper_of article) as [p|] eqn:E; [|reflexivity].
    exfalso. apply Hno. apply H1. eauto.
  - intros xmlDoc p. split; [apply parsePapers_origin|].
    intros [a [Ha Hp]]. rewrite parsePapers_flat_map, in_flat_map.
    exists a. split; [exact Ha|]. rewrite Hp. left; reflexivity.
Qed.

(** C2. The rendered abstract is the first 400 code units of the stored
    one followed by three full stops exactly when the stored abstract is
    longer than 400, and then it is that; an abstract of length at most
    400 is rendered as it is; and with no AbstractText sub-element the
    stored and the rendered abstract are the placeholder. *)
Theorem C2_abstract_rendering (article : located) (p : Paper) :
  paper_of article = Some p ->
  (abstract_text (render_card p) = firstn 400 (abstract p) ++ [0x2E; 0x2E; 0x2E]
   <-> (400 < List.length (abstract p))%nat) /\
  ((400 < List.length (abstract p))%nat ->
   abstract_text (render_card p) = firstn 400 (abstract p) ++ [0x2E; 0x2E; 0x2E] /\
   List.length (abstract_text (render_card p)) = 403%nat) /\
  ((List.length (abstract p) <= 400)%nat ->
   abstract_text (render_card p) = abstract p) /\
  (~ present (js "AbstractText") (snd article) ->
   abstract p = js "No abstract available" /\
   abstract_text (render_card p) = js "No abstract available").
Proof.
  intros Hp.
  change (abstract_text (render_card p)) with (render_abstract (abstract p)).
  unfold render_abstract, substring0.
  change (js "...") with [0x2E; 0x2E; 0x2E].
  split; [|split; [|split]].
  - destruct (Nat.ltb_spec 400 (List.length (abstract p))) as [Hlt|Hle].
    + tauto.
    + split; [|lia]. intros Heq. apply (f_equal (@List.length _)) in Heq.
      rewrite length_app, firstn_all2 in Heq by exact Hle.
      change (List.length [0x2E; 0x2E; 0x2E]) with 3%nat in Heq. lia.
  - intros Hlt. destruct (Nat.ltb_spec 400 (List.length (abstract p))); [|lia].
    split; [reflexivity|]. rewrite length_app, length_firstn.
    change (List.length [0x2E; 0x2E; 0x2E]) with 3%nat. lia.
  - intros Hle. destruct (Nat.ltb_spec 400 (List.length (abstract p))); [lia|].
    reflexivity.
  - intros Habs. apply querySelector_tag_absent in Habs.
    apply paper_of_some in Hp.
    destruct Hp as [t [m [_ [_ [_ [_ [_ [_ Ha]]]]]]]].
    rewrite Habs in Ha. simpl in Ha. rewrite Ha. split; reflexivity.
Qed.

Lemma C2_abstract_rendering_witness :
  paper_of LongAbstract.article = Some LongAbstract.paper /\
  (400 < List.length (abstract LongAbstract.paper))%nat /\
  abstract_text (render_card LongAbstract.paper)
    = js "Background: " ++ repeat 0x61 388 ++ [0x2E; 0x2E; 0x2E].
Proof.
  assert (Hp : paper_of LongAbstract.article = Some LongAbstract.paper)
    by reflexivity.
  assert (Hl : (400 < List.length (abstract LongAbstract.paper))%nat)
    by (vm_compute; lia).
  split; [exact Hp|]. split; [exact Hl|].
  destruct (C2_abstract_rendering LongAbstract.article LongAbstract.paper Hp)
    as [_ [H _]].
  destruct (H Hl) as [Hr _]. rewrite Hr. vm_compute. reflexivity.
Defined.

(** The placeholder, on an article without an abstract. *)
Example abstract_placeholder :
  abstract_text (render_card Samples.two_authors_paper)
    = js "No abstract available".
Proof. reflexivity. Qed.

(** What a literal is, code unit by code unit. *)
Example literal_code_units :
  js "Az 09..." = [0x41; 0x7A; 0x20; 0x30; 0x39; 0x2E; 0x2E; 0x2E].
Proof. reflexivity. Qed.

Lemma has_et_al_length (p : Paper) :
  has_et_al (render_card p) = true <-> List.length (authors p) = 5%nat.
Proof.
  unfold has_et_al, render_card, render_authors; simpl authors_block.
  destruct (Nat.ltb_spec 0 (List.length (authors p)));
    destruct (Nat.eqb_spec (List.length (authors p)) 5);
    split; intros; try discriminate; try lia; reflexivity.
Qed.

Example observed_six :
  observed_authors Samples.six_authors =
  [js "A One"; js "B Two"; js "C Three"; js "D Four"; js "E Five"; js "F Six"].
Proof. reflexivity. Qed.

(** Six authors and no DOI: five names, the marker, no DOI field. *)
Example six_authors_card :
  authors_block (render_card Samples.six_authors_paper)
    = Some (js "A One, B Two, C Three, D Four, E Five", Some (js " et al.")) /\
  meta_doi (render_card Samples.six_authors_paper) = None.
Proof. split; reflexivity. Qed.

(** C3, as stated, fails: an article in which the parser observes six
    named authors is rendered with the marker. *)
Lemma C3_six_authors_marked :
  paper_of Samples.six_authors = Some Samples.six_authors_paper /\
  List.length (observed_authors Samples.six_authors) = 6%nat /\
  has_et_al (render_card Samples.six_authors_paper) = true /\
  ~ (has_et_al (render_card Samples.six_authors_paper) = true <->
     List.length (observed_authors Samples.six_authors) = 5%nat).
Proof.
  split; [reflexivity|]. split; [reflexivity|]. split; [reflexivity|].
  intros [H _]. specialize (H eq_refl). vm_compute in H. discriminate.
Qed.

(** C3, amended. The parser stores the first 5 of the display names it
    has observed (so at most 5), and the rendered author line carries the
    [ et al.] marker exactly when the stored list has 5 names, that is
    when the parser observed 5 or more. *)
Theorem C3_et_al_at_five_or_more (article : located) (p : Paper) :
  paper_of article = Some p ->
  authors p = firstn 5 (observed_authors article) /\
  (List.length (authors p) <= 5)%nat /\
  (has_et_al (render_card p) = true <-> List.length (authors p) = 5%nat) /\
  (has_et_al (render_card p) = true <->
   (5 <= List.length (observed_authors article))%nat).
Proof.
  intros Hp. apply paper_of_some in Hp.
  destruct Hp as [t [m [_ [_ [_ [_ [_ [Ha _]]]]]]]].
  unfold slice0 in Ha.
  assert (Hlen : List.length (authors p) =
                 Nat.min 5 (List.length (observed_authors article))).
  { rewrite Ha. apply length_firstn. }
  split; [exact Ha|]. split; [lia|]. split; [apply has_et_al_length|].
  rewrite has_et_al_length. lia.
Qed.

Lemma C3_et_al_at_five_or_more_witness :
  paper_of Samples.six_authors = Some Samples.six_authors_paper /\
  (has_et_al (render_card Samples.six_authors_paper) = true <->
   (5 <= List.length (observed_authors Samples.six_authors))%nat).
Proof.
  split; [reflexivity|].
  apply (C3_et_al_at_five_or_more Samples.six_authors Samples.six_authors_paper).
  reflexivity.
Defined.

(** C10. Every record the parser produces has its [id] equal to its
    [pmid], both the text content of the first PMID sub-element of its
    article, so the card's key, its PMID line and its link use one
    identifier. *)
Theorem C10_id_equals_pmid (xmlDoc : node) (p : Paper) :
  In p (parsePapers xmlDoc) ->
  id p = pmid p /\
  (exists article pmidEl,
     In article (document_querySelectorAll (ByTag (js "PubmedArticle")) xmlDoc) /\
     querySelector (ByTag (js "PMID")) article = Some pmidEl /\
     id p = or_else (textContent (snd pmidEl)) [] /\
     pmid p = or_else (textContent (snd pmidEl)) []) /\
  meta_pmid (render_card p) = key (render_card p) /\
  href (render_card p) =
    js "https://pubmed.ncbi.nlm.nih.gov/" ++ key (render_card p) ++ js "/".
Proof.
  intros Hin. apply parsePapers_origin in Hin. destruct Hin as [a [Ha Hp]].
  apply paper_of_some in Hp.
  destruct Hp as [t [m [_ [Hm [Hid [Hpm _]]]]]].
  assert (E : id p = pmid p) by congruence.
  split; [exact E|]. split.
  - exists a, m. rewrite or_else_nil. auto.
  - unfold render_card; simpl. rewrite E. split; reflexivity.
Qed.

Lemma C10_id_equals_pmid_witness :
  In Samples.two_authors_paper (parsePapers Samples.article_set) /\
  id Samples.two_authors_paper = pmid Samples.two_authors_paper.
Proof.
  assert (H : In Samples.two_authors_paper (parsePapers Samples.article_set))
    by (left; reflexivity).
  split; [exact H|].
  apply (C10_id_equals_pmid Samples.article_set Samples.two_authors_paper H).
Defined.

(** ** searchPapers, path by path *)

Arguments js s : simpl never.

Lemma get_nonnull (d : json) (k : jsstring) :
  d <> JNull -> get (Some d) k = Normal (get_opt (Some d) k).
Proof. destruct d; intros H; try reflexivity. contradiction. Qed.

Lemma get_after_length (o : value) (k k' : jsstring) :
  length_truthy (get_opt o k) = true -> get o k' = Normal (get_opt o k').
Proof. destruct o as [[]|]; simpl; try discriminate; reflexivity. Qed.

Lemma idlist_nonnull (d : json) :
  length_truthy (idlist_of d) = true -> d <> JNull.
Proof. intros H ->. discriminate. Qed.

Arguments get o k : simpl never.
Arguments get_opt o k : simpl never.
Arguments length_truthy o : simpl never.
Arguments array_join ids sep : simpl never.
Arguments parseInt_or_0 v : simpl never.

(** Unfold one call of [searchPapers] on a query that is not blank. *)
Ltac enter_search Hq :=
  unfold submit, searchPapers;
  match goal with
  | |- context [trim (query ?st)] =>
      let E := fresh "Etrim" in
      destruct (trim (query st)) eqn:E; [contradiction Hq; reflexivity|]
  end;
  unfold try_catch_finally, search_body, bind; simpl.

Lemma submit_blank (b : Browser) (st : State) :
  trim (query st) = [] ->
  searchPapers b st = ret tt /\
  submit b st = {| ui := st; requests := []; console := [] |}.
Proof.
  intros Hq. unfold submit, searchPapers. rewrite Hq. simpl. split; reflexivity.
Qed.

Lemma submit_uri_error (b : Browser) (st : State) :
  trim (query st) <> [] ->
  searchTerm_of st = None ->
  submit b st =
  {| ui := settled st fetch_error_message (resultCount st) [];
     requests := []; console := [URIError] |}.
Proof.
  intros Hq He. unfold searchTerm_of in He. enter_search Hq.
  rewrite He. reflexivity.
Qed.

Lemma submit_search_rejected (b : Browser) (st : State) term :
  trim (query st) <> [] ->
  searchTerm_of st = Some term ->
  fetch b (searchUrl_of term st) = None ->
  submit b st =
  {| ui := settled st fetch_error_message (resultCount st) [];
     requests := [searchUrl_of term st]; console := [NetworkError] |}.
Proof.
  intros Hq He Hf. unfold searchTerm_of in He. enter_search Hq.
  rewrite He. simpl. unfold await_fetch. simpl. rewrite Hf. reflexivity.
Qed.

Lemma submit_json_rejected (b : Browser) (st : State) term r :
  trim (query st) <> [] ->
  searchTerm_of st = Some term ->
  fetch b (searchUrl_of term st) = Some r ->
  json_body r = None ->
  submit b st =
  {| ui := settled st fetch_error_message (resultCount st) [];
     requests := [searchUrl_of term st]; console := [SyntaxError] |}.
Proof.
  intros Hq He Hf Hj. unfold searchTerm_of in He. enter_search Hq.
  rewrite He. simpl. unfold await_fetch. simpl. rewrite Hf.
  unfold await_json. rewrite Hj. reflexivity.
Qed.

Lemma submit_json_null (b : Browser) (st : State) term r :
  trim (query st) <> [] ->
  searchTerm_of st = Some term ->
  fetch b (searchUrl_of term st) = Some r ->
  json_body r = Some JNull ->
  submit b st =
  {| ui := settled st fetch_error_message (resultCount st) [];
     requests := [searchUrl_of term st]; console := [TypeError] |}.
Proof.
  intros Hq He Hf Hj. unfold searchTerm_of in He. enter_search Hq.
  rewrite He. simpl. unfold await_fetch. simpl. rewrite Hf.
  unfold await_json. rewrite Hj. reflexivity.
Qed.

Lemma submit_no_identifiers (b : Browser) (st : State) term r d :
  trim (query st) <> [] ->
  searchTerm_of st = Some term ->
  fetch b (searchUrl_of term st) = Some r ->
  json_body r = Some d ->
  d <> JNull ->
  length_truthy (idlist_of d) = false ->
  submit b st =
  {| ui := settled st no_results_message (resultCount st) [];
     requests := [searchUrl_of term st]; console := [] |}.
Proof.
  intros Hq He Hf Hj Hd Hl. unfold searchTerm_of in He. enter_search Hq.
  rewrite He. simpl. unfold await_fetch. simpl. rewrite Hf.
  unfold await_json. rewrite Hj. simpl.
  unfold lift. rewrite (get_nonnull d _ Hd).
  unfold idlist_of in Hl. rewrite Hl. reflexivity.
Qed.

(** With identifiers in hand the count is stored first; the rest of the
    attempt decides between a failure and the parsed records. *)
Lemma submit_with_identifiers (b : Browser) (st : State) term r d :
  trim (query st) <> [] ->
  searchTerm_of st = Some term ->
  fetch b (searchUrl_of term st) = Some r ->
  json_body r = Some d ->
  length_truthy (idlist_of d) = true ->
  submit b st =
  match parseInt_or_0 (count_of d) with
  | Throw e =>
      {| ui := settled st fetch_error_message (resultCount st) [];
         requests := [searchUrl_of term st]; console := [e] |}
  | Normal n =>
      let failed := settled st fetch_error_message n [] in
      match array_join (idlist_of d) (js ",") with
      | Throw e =>
          {| ui := failed; requests := [searchUrl_of term st]; console := [e] |}
      | Normal joined =>
          match fetch b (fetchUrl_of joined) with
          | None =>
              {| ui := failed;
                 requests := [searchUrl_of term st; fetchUrl_of joined];
                 console := [NetworkError] |}
          | Some r' =>
              match text_body r' with
              | None =>
                  {| ui := failed;
                     requests := [searchUrl_of term st; fetchUrl_of joined];
                     console := [NetworkError] |}
              | Some xmlText =>
                  {| ui := settled st [] n
                             (parsePapers (parseFromString b xmlText));
                     requests := [searchUrl_of term st; fetchUrl_of joined];
                     console := [] |}
              end
          end
      end
  end.
Proof.
  intros Hq He Hf Hj Hl. pose proof (idlist_nonnull d Hl) as Hd.
  unfold searchTerm_of in He. enter_search Hq.
  rewrite He. simpl. unfold await_fetch. simpl. rewrite Hf.
  unfold await_json. rewrite Hj. simpl.
  unfold lift. rewrite (get_nonnull d _ Hd).
  unfold idlist_of in Hl |- *. unfold count_of. rewrite Hl. simpl.
  rewrite (get_after_length _ _ (js "idlist") Hl).
  rewrite (get_after_length _ _ (js "count") Hl).
  simpl.
  destruct (parseInt_or_0 _) as [n|e]; [|reflexivity].
  simpl.
  destruct (array_join _ _) as [joined|e]; [|reflexivity].
  simpl. destruct (fetch b (fetchUrl_of joined)) as [r'|]; [|reflexivity].
  unfold await_text. destruct (text_body r'); reflexivity.
Qed.

(** ** Scenarios *)

Example aspirin_search_term :
  searchTerm_of Scenarios.aspirin = Some Scenarios.aspirin_term /\
  searchUrl_of Scenarios.aspirin_term Scenarios.aspirin = Scenarios.aspirin_url.
Proof. split; reflexivity. Qed.

Example first_render :
  Home initial =
  {| button_disabled := false; button_label := js "Search";
     loading_banner := false; error_box := None; stats := None;
     results := []; no_results_hint := true |}.
Proof. reflexivity. Qed.

Example healthy_search :
  submit Scenarios.healthy Scenarios.aspirin =
  {| ui := settled Scenarios.aspirin [] (Finite 3) [Scenarios.willow_paper];
     requests := [Scenarios.aspirin_url; Scenarios.detail_url];
     console := [] |}.
Proof. reflexivity. Qed.

Example healthy_view :
  stats (Home Scenarios.after_success) = Some (Finite 3, 1%nat) /\
  map key (results (Home Scenarios.after_success)) = [js "7"].
Proof. split; reflexivity. Qed.

Example offline_search :
  submit Scenarios.offline Scenarios.aspirin =
  {| ui := settled Scenarios.aspirin fetch_error_message (Finite 0) [];
     requests := [Scenarios.aspirin_url];
     console := [NetworkError] |}.
Proof. reflexivity. Qed.

Example parseInt_examples :
  parseInt (js "  42abc") = Some (Finite 42) /\
  parseInt (js "-7") = Some (Finite (-7)) /\
  parseInt (js "0x1A") = Some (Finite 26) /\ parseInt (js "abc") = None /\
  parseInt (js "") = None /\
  parseInt (js "9007199254740993") = Some (Finite 9007199254740992) /\
  parseInt (js "9007199254740995") = Some (Finite 9007199254740996) /\
  parseInt (repeat 0x39 401) = Some (Infinite false).
Proof. repeat split; vm_compute; reflexivity. Qed.

(** ToString on what JSON can hold. *)
Example to_string_examples :
  to_string (JArr [JStr (js "7"); JNull; JNum (js "9"); JArr [JBool true]])
    = Normal (js "7,,9,true") /\
  to_string (JObj [(js "count", JStr (js "1"))]) = Normal (js "[object Object]") /\
  to_string (JObj [(js "toString", JNum (js "1"))]) = Throw TypeError /\
  to_string (JArr [JStr (js "7"); JObj [(js "toString", JNull)]])
    = Throw TypeError /\
  parseInt_or_0 (Some (JObj [(js "toString", JNum (js "1"))])) = Throw TypeError /\
  parseInt_or_0 None = Normal (Finite 0) /\
  parseInt_or_0 (Some (JStr (js "-0"))) = Normal (Finite 0).
Proof. repeat split; reflexivity. Qed.

(** ** Outcomes of a submission *)

Lemma positive_spec (n : number) : is_positive n -> positive n = true.
Proof.
  destruct n as [z|[|]]; simpl; intros H;
    [apply Z.ltb_lt; exact H | discriminate | reflexivity].
Qed.

Lemma positive_is_positive (n : number) : positive n = true -> is_positive n.
Proof.
  destruct n as [z|[|]]; simpl; intros H;
    [apply Z.ltb_lt; exact H | discriminate | reflexivity].
Qed.

Lemma json_null_or_not (d : json) : d = JNull \/ d <> JNull.
Proof. destruct d; (left; reflexivity) || (right; discriminate). Qed.

Lemma search_step_fails_ui (b : Browser) (st : State) :
  trim (query st) <> [] ->
  search_step_fails b st ->
  ui (submit b st) = settled st fetch_error_message (resultCount st) [].
Proof.
  intros Hq [[He|[term [He [Hf|[r [Hf Hj]]]]]]|[[term [r [He [Hf Hj]]]]|
              [d [[term [r [He [Hf Hj]]]] [Hl [e Hc]]]]]].
  - rewrite (submit_uri_error b st Hq He); reflexivity.
  - rewrite (submit_search_rejected b st term Hq He Hf); reflexivity.
  - rewrite (submit_json_rejected b st term r Hq He Hf Hj); reflexivity.
  - rewrite (submit_json_null b st term r Hq He Hf Hj); reflexivity.
  - rewrite (submit_with_identifiers b st term r d Hq He Hf Hj Hl), Hc.
    reflexivity.
Qed.

Lemma search_step_empty_ui (b : Browser) (st : State) :
  trim (query st) <> [] ->
  search_step_empty b st ->
  ui (submit b st) = settled st no_results_message (resultCount st) [].
Proof.
  intros Hq [d [[term [r [He [Hf Hj]]]] [Hd Hl]]].
  rewrite (submit_no_identifiers b st term r d Hq He Hf Hj Hd Hl); reflexivity.
Qed.

Lemma detail_step_fails_ui (b : Browser) (st : State) (d : json) :
  trim (query st) <> [] ->
  detail_step_fails b st d ->
  exists n, ui (submit b st) = settled st fetch_error_message n [] /\
            (forall m, parseInt_or_0 (count_of d) = Normal m -> n = m).
Proof.
  intros Hq [[term [r [He [Hf Hj]]]] [Hl Hrest]].
  rewrite (submit_with_identifiers b st term r d Hq He Hf Hj Hl).
  destruct (parseInt_or_0 (count_of d)) as [n|e0].
  2:{ eexists. split; [reflexivity | discriminate]. }
  exists n. split; [|intros m Hm; injection Hm; auto]. cbv zeta.
  destruct (array_join (idlist_of d) (js ",")) as [joined|e]; [|reflexivity].
  destruct Hrest as [Hf'|[r' [Hf' Ht]]]; rewrite Hf'; [reflexivity|].
  rewrite Ht; reflexivity.
Qed.

(** Once the term is encoded, the first request of the attempt is the
    identifier search. *)
Lemma first_request (b : Browser) (st : State) term :
  trim (query st) <> [] ->
  searchTerm_of st = Some term ->
  exists later, requests (submit b st) = searchUrl_of term st :: later.
Proof.
  intros Hq He.
  destruct (fetch b (searchUrl_of term st)) as [r|] eqn:Hf.
  2:{ rewrite (submit_search_rejected b st term Hq He Hf); simpl; eauto. }
  destruct (json_body r) as [d|] eqn:Hj.
  2:{ rewrite (submit_json_rejected b st term r Hq He Hf Hj); simpl; eauto. }
  destruct (length_truthy (idlist_of d)) eqn:Hl.
  - rewrite (submit_with_identifiers b st term r d Hq He Hf Hj Hl).
    destruct (parseInt_or_0 _) as [n|e0]; [|simpl; eauto]. cbv zeta.
    destruct (array_join _ _) as [joined|e]; [|simpl; eauto].
    destruct (fetch b (fetchUrl_of joined)) as [r'|]; [|simpl; eauto].
    destruct (text_body r'); simpl; eauto.
  - destruct (json_null_or_not d) as [->|Hd].
    + rewrite (submit_json_null b st term r Hq He Hf Hj); simpl; eauto.
    + rewrite (submit_no_identifiers b st term r d Hq He Hf Hj Hd Hl);
        simpl; eauto.
Qed.

(** Every submission of a query that is not blank settles, in one of
    four ways. *)
Lemma submit_cases (b : Browser) (st : State) :
  trim (query st) <> [] ->
  (search_step_fails b st /\
   ui (submit b st) = settled st fetch_error_message (resultCount st) []) \/
  (search_step_empty b st /\
   ui (submit b st) = settled st no_results_message (resultCount st) []) \/
  (exists d n, detail_step_fails b st d /\
   parseInt_or_0 (count_of d) = Normal n /\
   ui (submit b st) = settled st fetch_error_message n []) \/
  (exists n ps, search_succeeds b st n ps /\
   ui (submit b st) = settled st [] n ps).
Proof.
  intros Hq.
  assert (Hfail : search_step_fails b st ->
    search_step_fails b st /\
    ui (submit b st) = settled st fetch_error_message (resultCount st) []).
  { intros H. split; [exact H | apply search_step_fails_ui; assumption]. }
  destruct (searchTerm_of st) as [term|] eqn:He.
  2:{ left. apply Hfail. left. left. exact He. }
  destruct (fetch b (searchUrl_of term st)) as [r|] eqn:Hf.
  2:{ left. apply Hfail. left. right. exists term. auto. }
  destruct (json_body r) as [d|] eqn:Hj.
  2:{ left. apply Hfail. left. right. exists term. split; [exact He|].
      right. exists r. auto. }
  assert (Hr : search_reply b st d) by (exists term, r; auto).
  destruct (length_truthy (idlist_of d)) eqn:Hl.
  - pose proof (submit_with_identifiers b st term r d Hq He Hf Hj Hl) as Hs.
    destruct (parseInt_or_0 (count_of d)) as [n|e0] eqn:Ec.
    2:{ left. apply Hfail. right. right. exists d.
        split; [exact Hr|]. split; [exact Hl|]. exists e0. exact Ec. }
    right. right. cbv zeta in Hs.
    destruct (array_join (idlist_of d) (js ",")) as [joined|e] eqn:Ej.
    2:{ left. exists d, n. split; [|split; [exact Ec | rewrite Hs; reflexivity]].
        split; [exact Hr|]. split; [exact Hl|]. rewrite Ej. exact I. }
    destruct (fetch b (fetchUrl_of joined)) as [r'|] eqn:Hf'.
    2:{ left. exists d, n. split; [|split; [exact Ec | rewrite Hs; reflexivity]].
        split; [exact Hr|]. split; [exact Hl|]. rewrite Ej. left; exact Hf'. }
    destruct (text_body r') as [xmlText|] eqn:Ht.
    2:{ left. exists d, n. split; [|split; [exact Ec | rewrite Hs; reflexivity]].
        split; [exact Hr|]. split; [exact Hl|]. rewrite Ej.
        right. exists r'. auto. }
    right. exists n.
    exists (parsePapers (parseFromString b xmlText)).
    split; [|rewrite Hs; reflexivity].
    exists d, joined, r', xmlText. repeat split; assumption.
  - destruct (json_null_or_not d) as [->|Hd].
    + left. apply Hfail. right. left. exact Hr.
    + right. left.
      assert (H : search_step_empty b st) by (exists d; auto).
      split; [exact H | apply search_step_empty_ui; assumption].
Qed.

(** The fetch-failure message is the outcome of these failures and of
    nothing else. *)
Lemma fetch_error_iff (b : Browser) (st : State) :
  trim (query st) <> [] ->
  (error (ui (submit b st)) = fetch_error_message <->
   search_step_fails b st \/ exists d, detail_step_fails b st d).
Proof.
  intros Hq. split.
  - intros He.
    destruct (submit_cases b st Hq)
      as [[H _]|[[_ Hu]|[[d [n [H _]]]|[n [ps [_ Hu]]]]]]; eauto;
      rewrite Hu in He; vm_compute in He; discriminate.
  - intros [H|[d H]].
    + rewrite (search_step_fails_ui b st Hq H); reflexivity.
    + destruct (detail_step_fails_ui b st d Hq H) as [n [-> _]]; reflexivity.
Qed.

(** The status of a response has no part in the outcome. *)
Lemma submit_ignores_status (b b' : Browser) (st : State) :
  same_but_status b b' -> submit b st = submit b' st.
Proof.
  intros [Hp Hsame].
  destruct (trim (query st)) as [|c q'] eqn:Et.
  { destruct (submit_blank b st Et) as [_ ->].
    destruct (submit_blank b' st Et) as [_ ->]. reflexivity. }
  assert (Hq : trim (query st) <> []) by (rewrite Et; discriminate).
  destruct (searchTerm_of st) as [term|] eqn:He.
  2:{ rewrite !submit_uri_error by assumption. reflexivity. }
  pose proof (Hsame (searchUrl_of term st)) as H1.
  destruct (fetch b (searchUrl_of term st)) as [r|] eqn:Hf;
    destruct (fetch b' (searchUrl_of term st)) as [r'|] eqn:Hf';
    try contradiction.
  2:{ rewrite (submit_search_rejected b st term Hq He Hf).
      rewrite (submit_search_rejected b' st term Hq He Hf'). reflexivity. }
  destruct H1 as [Hj' _].
  destruct (json_body r) as [d|] eqn:Hj; symmetry in Hj'.
  2:{ rewrite (submit_json_rejected b st term r Hq He Hf Hj).
      rewrite (submit_json_rejected b' st term r' Hq He Hf' Hj'). reflexivity. }
  destruct (length_truthy (idlist_of d)) eqn:Hl.
  - rewrite (submit_with_identifiers b st term r d Hq He Hf Hj Hl).
    rewrite (submit_with_identifiers b' st term r' d Hq He Hf' Hj' Hl).
    destruct (parseInt_or_0 _) as [n|e0]; [|reflexivity].
    cbv zeta.
    destruct (array_join _ _) as [joined|e]; [|reflexivity].
    pose proof (Hsame (fetchUrl_of joined)) as H2.
    destruct (fetch b (fetchUrl_of joined)) as [x|];
      destruct (fetch b' (fetchUrl_of joined)) as [x'|];
      try contradiction; [|reflexivity].
    destruct H2 as [_ Ht]. rewrite <- Ht.
    destruct (text_body x); [rewrite Hp|]; reflexivity.
  - destruct (json_null_or_not d) as [->|Hd].
    + rewrite (submit_json_null b st term r Hq He Hf Hj).
      rewrite (submit_json_null b' st term r' Hq He Hf' Hj'). reflexivity.
    + rewrite (submit_no_identifiers b st term r d Hq He Hf Hj Hd Hl).
      rewrite (submit_no_identifiers b' st term r' d Hq He Hf' Hj' Hd Hl).
      reflexivity.
Qed.

(** ** The claims on searchPapers *)

(** C4, as stated, fails: the status of a response is not looked at.  A
    detail fetch answered with status 500 ends with no error message at
    all, and an identifier search answered with status 429 and a JSON
    body ends with the no-results message. *)
Lemma C4_status_not_inspected :
  fetch Scenarios.detail_500 Scenarios.detail_url
    = Some (Scenarios.text_reply 500 Scenarios.error_payload) /\
  ok (Scenarios.text_reply 500 Scenarios.error_payload) = false /\
  requests (submit Scenarios.detail_500 Scenarios.aspirin)
    = [Scenarios.aspirin_url; Scenarios.detail_url] /\
  error (ui (submit Scenarios.detail_500 Scenarios.aspirin)) = [] /\
  error (ui (submit Scenarios.detail_500 Scenarios.aspirin))
    <> fetch_error_message /\
  (exists r, fetch Scenarios.rate_limited Scenarios.aspirin_url = Some r /\
             ok r = false) /\
  error (ui (submit Scenarios.rate_limited Scenarios.aspirin))
    = no_results_message /\
  error (ui (submit Scenarios.rate_limited Scenarios.aspirin))
    <> fetch_error_message.
Proof.
  repeat split; try reflexivity.
  - intros H; vm_compute in H; discriminate.
  - eexists; split; reflexivity.
  - intros H; vm_compute in H; discriminate.
Qed.

(** C4, amended. Whenever the identifier-search step or the detail-fetch
    step fails by a rejected fetch, a body that cannot be read or parsed,
    or an exception thrown on the way, the attempt ends with the message
    [Failed to fetch research papers. Please try again.], not loading and
    with no card; the status of a response plays no part in the outcome. *)
Theorem C4_failure_gives_fetch_error (b : Browser) (st : State) :
  trim (query st) <> [] ->
  (search_step_fails b st \/ exists d, detail_step_fails b st d) ->
  error (ui (submit b st)) = fetch_error_message /\
  error_box (Home (ui (submit b st))) = Some fetch_error_message /\
  loading (ui (submit b st)) = false /\
  papers (ui (submit b st)) = [] /\
  results (Home (ui (submit b st))) = [] /\
  (forall b', same_but_status b b' -> submit b' st = submit b st).
Proof.
  intros Hq H.
  assert (Hui : exists n, ui (submit b st) = settled st fetch_error_message n []).
  { destruct H as [H|[d H]].
    - eexists; apply search_step_fails_ui; assumption.
    - destruct (detail_step_fails_ui b st d Hq H) as [n [Hn _]]. eauto. }
  destruct Hui as [n ->].
  repeat split; try reflexivity.
  intros b' Hb. symmetry. apply submit_ignores_status; exact Hb.
Qed.

Lemma C4_failure_gives_fetch_error_witness :
  trim (query Scenarios.aspirin) <> [] /\
  detail_step_fails Scenarios.detail_down Scenarios.aspirin
    (Scenarios.envelope "42" ["7"%string]) /\
  error (ui (submit Scenarios.detail_down Scenarios.aspirin))
    = fetch_error_message.
Proof.
  assert (Hq : trim (query Scenarios.aspirin) <> [])
    by (intros H; vm_compute in H; discriminate).
  assert (Hd : detail_step_fails Scenarios.detail_down Scenarios.aspirin
                 (Scenarios.envelope "42" ["7"%string])).
  { split; [|split].
    - exists Scenarios.aspirin_term.
      exists (Scenarios.json_reply 200 (Scenarios.envelope "42" ["7"%string])).
      repeat split; reflexivity.
    - reflexivity.
    - vm_compute. left; reflexivity. }
  split; [exact Hq|]. split; [exact Hd|].
  apply (C4_failure_gives_fetch_error Scenarios.detail_down Scenarios.aspirin Hq).
  right. exists (Scenarios.envelope "42" ["7"%string]). exact Hd.
Defined.

(** C5. When the identifier search answers with an empty identifier
    list, the attempt ends with the message [No research papers found.
    Try different keywords.], the identifier search is the only request
    issued, and no paper record is produced. *)
Theorem C5_no_identifiers (b : Browser) (st : State) (d : json) :
  trim (query st) <> [] ->
  search_reply b st d ->
  idlist_of d = Some (JArr []) ->
  error (ui (submit b st)) = no_results_message /\
  includes (error (ui (submit b st))) (js "No research papers found") /\
  error_box (Home (ui (submit b st))) = Some no_results_message /\
  (exists term, searchTerm_of st = Some term /\
                requests (submit b st) = [searchUrl_of term st]) /\
  console (submit b st) = [] /\
  papers (ui (submit b st)) = [] /\
  results (Home (ui (submit b st))) = [] /\
  loading (ui (submit b st)) = false.
Proof.
  intros Hq [term [r [He [Hf Hj]]]] Hi.
  assert (Hd : d <> JNull) by (intros ->; discriminate).
  assert (Hl : length_truthy (idlist_of d) = false) by (rewrite Hi; reflexivity).
  rewrite (submit_no_identifiers b st term r d Hq He Hf Hj Hd Hl).
  repeat split; try reflexivity.
  - exists [], (js ". Try different keywords."). reflexivity.
  - exists term. split; [exact He | reflexivity].
Qed.

Lemma C5_no_identifiers_witness :
  trim (query Scenarios.aspirin) <> [] /\
  search_reply Scenarios.no_hits Scenarios.aspirin (Scenarios.envelope "0" []) /\
  idlist_of (Scenarios.envelope "0" []) = Some (JArr []) /\
  error (ui (submit Scenarios.no_hits Scenarios.aspirin)) = no_results_message.
Proof.
  assert (Hq : trim (query Scenarios.aspirin) <> [])
    by (intros H; vm_compute in H; discriminate).
  assert (Hr : search_reply Scenarios.no_hits Scenarios.aspirin
                 (Scenarios.envelope "0" [])).
  { exists Scenarios.aspirin_term.
    exists (Scenarios.json_reply 200 (Scenarios.envelope "0" [])).
    repeat split; reflexivity. }
  split; [exact Hq|]. split; [exact Hr|]. split; [reflexivity|].
  apply (C5_no_identifiers Scenarios.no_hits Scenarios.aspirin
           (Scenarios.envelope "0" []) Hq Hr).
  reflexivity.
Defined.

(** C6. On a query that is empty or made of white space only,
    submitting issues no request and leaves the whole state, and so the
    page, as it was. *)
Theorem C6_blank_query_is_noop (b : Browser) (st : State) :
  forallb is_white_space (query st) = true ->
  (forall w, searchPapers b st w = (w, Normal tt)) /\
  requests (submit b st) = [] /\
  console (submit b st) = [] /\
  ui (submit b st) = st /\
  Home (ui (submit b st)) = Home st.
Proof.
  intros Hws. apply trim_blank in Hws.
  destruct (submit_blank b st Hws) as [Hs ->]. rewrite Hs.
  repeat split; reflexivity.
Qed.

Lemma C6_blank_query_is_noop_witness :
  forallb is_white_space (query Scenarios.blank) = true /\
  requests (submit Scenarios.healthy Scenarios.blank) = [] /\
  ui (submit Scenarios.healthy Scenarios.blank) = Scenarios.blank.
Proof.
  split; [reflexivity|].
  destruct (C6_blank_query_is_noop Scenarios.healthy Scenarios.blank eq_refl)
    as [_ [Hr [_ [Hu _]]]].
  split; [exact Hr | exact Hu].
Defined.

(** C7 fails on the code. When the detail fetch rejects, the count
    reported by the failed attempt's identifier search has been stored
    already and stays: the statistics line renders it next to the error
    message, though no card is shown. *)
Theorem C7_count_of_failed_attempt_rendered :
  stats (Home Scenarios.aspirin) = None /\
  detail_step_fails Scenarios.detail_down Scenarios.aspirin
    (Scenarios.envelope "42" ["7"%string]) /\
  error_box (Home (ui (submit Scenarios.detail_down Scenarios.aspirin)))
    = Some fetch_error_message /\
  results (Home (ui (submit Scenarios.detail_down Scenarios.aspirin))) = [] /\
  stats (Home (ui (submit Scenarios.detail_down Scenarios.aspirin)))
    = Some (Finite 42, 0%nat).
Proof.
  split; [reflexivity|]. split.
  { split; [|split].
    - exists Scenarios.aspirin_term.
      exists (Scenarios.json_reply 200 (Scenarios.envelope "42" ["7"%string])).
      repeat split; reflexivity.
    - reflexivity.
    - vm_compute. left; reflexivity. }
  repeat split; reflexivity.
Qed.

Lemma includes_left (a b : jsstring) : includes (a ++ b) a.
Proof. exists [], b. reflexivity. Qed.

Lemma includes_right (a b : jsstring) : includes (a ++ b) b.
Proof. exists a, []. rewrite app_nil_r. reflexivity. Qed.

Example domain_filter_encoded :
  encodeURIComponent domain_filter = Some encoded_domain_filter.
Proof. reflexivity. Qed.

(** C8, as stated, fails: a query that is not blank but holds an
    unpaired surrogate cannot be encoded; no request is made and the
    attempt ends with the fetch-failure message. *)
Lemma C8_unpaired_surrogate_query :
  trim (query Scenarios.lone_surrogate) <> [] /\
  searchTerm_of Scenarios.lone_surrogate = None /\
  requests (submit Scenarios.healthy Scenarios.lone_surrogate) = [] /\
  error (ui (submit Scenarios.healthy Scenarios.lone_surrogate))
    = fetch_error_message.
Proof.
  split; [intros H; vm_compute in H; discriminate|].
  repeat split; reflexivity.
Qed.

(** C8, amended. For every query that is not blank and has no unpaired
    surrogate, the first request of the attempt is the identifier search,
    and its term parameter is the encoding of the user's text followed by
    the fixed domain filter, which is the encoding of the text followed
    by the encoding of the filter and holds no ampersand. *)
Theorem C8_search_term (b : Browser) (st : State) :
  trim (query st) <> [] ->
  isWellFormed (query st) = true ->
  encodeURIComponent domain_filter = Some encoded_domain_filter /\
  exists encoded_text,
    encodeURIComponent (query st) = Some encoded_text /\
    encodeURIComponent (query st ++ domain_filter)
      = Some (encoded_text ++ encoded_domain_filter) /\
    (exists later,
       requests (submit b st) =
       (esearch_prefix ++ (encoded_text ++ encoded_domain_filter)
        ++ js "&retmax=" ++ maxResults st
        ++ js "&retmode=json&sort=" ++ sortBy st) :: later) /\
    includes (query st ++ domain_filter) (query st) /\
    includes (query st ++ domain_filter) domain_filter /\
    includes (encoded_text ++ encoded_domain_filter) encoded_text /\
    includes (encoded_text ++ encoded_domain_filter) encoded_domain_filter /\
    Forall (fun c => c <> 0x26) (encoded_text ++ encoded_domain_filter).
Proof.
  intros Hq Hwf. split; [exact domain_filter_encoded|].
  destruct (encode_wellformed _ Hwf) as [et Het].
  exists et. split; [exact Het|].
  assert (Hterm : encodeURIComponent (query st ++ domain_filter)
                  = Some (et ++ encoded_domain_filter)).
  { rewrite (encode_app _ _ _ Het), domain_filter_encoded. reflexivity. }
  split; [exact Hterm|]. split.
  - apply (first_request b st _ Hq Hterm).
  - repeat split;
      try (apply includes_left || apply includes_right).
    apply (encode_not_amp _ _ Hterm).
Qed.

Lemma C8_search_term_witness :
  trim (query Scenarios.aspirin) <> [] /\
  isWellFormed (query Scenarios.aspirin) = true /\
  exists encoded_text,
    encodeURIComponent (query Scenarios.aspirin) = Some encoded_text /\
    encodeURIComponent (query Scenarios.aspirin ++ domain_filter)
      = Some (encoded_text ++ encoded_domain_filter).
Proof.
  assert (Hq : trim (query Scenarios.aspirin) <> [])
    by (intros H; vm_compute in H; discriminate).
  split; [exact Hq|]. split; [reflexivity|].
  destruct (C8_search_term Scenarios.healthy Scenarios.aspirin Hq eq_refl)
    as [_ [et [H1 [H2 _]]]].
  exists et. split; [exact H1 | exact H2].
Defined.

(** C9, as stated, fails: after a successful search that stored the
    count 3, an attempt whose detail fetch rejects ends in the
    fetch-failure message with the count 42 of its own identifier search
    in state, not the count of the previous search. *)
Lemma C9_count_replaced_after_detail_failure :
  resultCount Scenarios.after_success = Finite 3 /\
  error (ui (submit Scenarios.detail_down Scenarios.after_success))
    = fetch_error_message /\
  resultCount (ui (submit Scenarios.detail_down Scenarios.after_success))
    = Finite 42 /\
  resultCount (ui (submit Scenarios.detail_down Scenarios.after_success))
    <> resultCount Scenarios.after_success.
Proof.
  repeat split; try reflexivity.
  intros H; vm_compute in H; discriminate.
Qed.

(** C9, amended. A new search clears the previous papers and error
    message but not the stored count: when it ends with no identifier, or
    fails at the identifier-search step, the count of the previous search
    stays in state, and when that count is positive the statistics line
    (showing 0) renders together with the error message. *)
Theorem C9_stale_count_after_failure (b : Browser) (st : State) :
  trim (query st) <> [] ->
  search_step_empty b st \/ search_step_fails b st ->
  papers (ui (submit b st)) = [] /\
  (error (ui (submit b st)) = no_results_message \/
   error (ui (submit b st)) = fetch_error_message) /\
  resultCount (ui (submit b st)) = resultCount st /\
  (is_positive (resultCount st) ->
   stats (Home (ui (submit b st))) = Some (resultCount st, 0%nat) /\
   error_box (Home (ui (submit b st))) = Some (error (ui (submit b st)))).
Proof.
  intros Hq H.
  assert (Hui : exists e,
    (e = no_results_message \/ e = fetch_error_message) /\
    ui (submit b st) = settled st e (resultCount st) []).
  { destruct H as [H|H].
    - exists no_results_message. split; [left; reflexivity|].
      apply search_step_empty_ui; assumption.
    - exists fetch_error_message. split; [right; reflexivity|].
      apply search_step_fails_ui; assumption. }
  destruct Hui as [e [He ->]].
  split; [reflexivity|]. split; [exact He|]. split; [reflexivity|].
  intros Hpos. unfold Home, settled; simpl.
  rewrite (positive_spec _ Hpos). simpl.
  split; [reflexivity|]. destruct He as [->| ->]; reflexivity.
Qed.

Lemma C9_stale_count_after_failure_witness :
  trim (query Scenarios.after_success) <> [] /\
  search_step_fails Scenarios.offline Scenarios.after_success /\
  resultCount (ui (submit Scenarios.offline Scenarios.after_success)) = Finite 3 /\
  stats (Home (ui (submit Scenarios.offline Scenarios.after_success)))
    = Some (Finite 3, 0%nat).
Proof.
  assert (Hq : trim (query Scenarios.after_success) <> [])
    by (intros H; vm_compute in H; discriminate).
  assert (Hf : search_step_fails Scenarios.offline Scenarios.after_success).
  { left. right. exists Scenarios.aspirin_term.
    split; [reflexivity | left; reflexivity]. }
  split; [exact Hq|]. split; [exact Hf|].
  destruct (C9_stale_count_after_failure Scenarios.offline
              Scenarios.after_success Hq (or_intror Hf)) as [_ [_ [Hc Hs]]].
  split; [exact Hc|].
  destruct (Hs ltac:(vm_compute; reflexivity)) as [Hst _]. exact Hst.
Defined.

(* ================================================================== *)
(** * Further properties of the page *)

(** ** Author names *)

Lemma trimStart_suffix (s : jsstring) : exists p, s = p ++ trimStart s.
Proof.
  induction s as [|c s [p IH]]; [exists []; reflexivity|].
  simpl. destruct (is_white_space c).
  - exists (c :: p). simpl. rewrite <- IH. reflexivity.
  - exists []. reflexivity.
Qed.

Lemma trim_trimmed (s : jsstring) : trimmed (trim s).
Proof.
  unfold trim, trimEnd, trimmed.
  remember (trimStart s) as t eqn:Et.
  remember (trimStart (rev t)) as u eqn:Eu.
  rewrite rev_involutive. split.
  - destruct (trimStart_suffix (rev t)) as [p Hp]. rewrite <- Eu in Hp.
    apply (f_equal (@rev _)) in Hp.
    rewrite rev_involutive, rev_app_distr in Hp.
    destruct (rev u) as [|c r]; [exact I|].
    simpl in Hp. rewrite Hp in Et. symmetry in Et.
    exact (trimStart_head _ _ _ Et).
  - destruct u as [|c r]; [exact I|]. symmetry in Eu.
    exact (trimStart_head _ _ _ Eu).
Qed.

Lemma trim_fixed (s : jsstring) : trimmed s -> trim s = s.
Proof.
  intros [H1 H2]. unfold trim, trimEnd.
  assert (Hs : trimStart s = s).
  { destruct s as [|c r]; [reflexivity|]. simpl. rewrite H1. reflexivity. }
  rewrite Hs.
  assert (Hr : trimStart (rev s) = rev s).
  { destruct (rev s) as [|c r]; [reflexivity|]. simpl. rewrite H2. reflexivity. }
  rewrite Hr. apply rev_involutive.
Qed.

Lemma trim_blank_first (l : jsstring) : trim (js " " ++ l) = trim l.
Proof. reflexivity. Qed.

Lemma trimStart_app (f x : jsstring) :
  trimStart (f ++ x) =
  match trimStart f with
  | [] => trimStart x
  | _ :: _ => trimStart f ++ x
  end.
Proof.
  induction f as [|c f IH]; [reflexivity|].
  simpl. destruct (is_white_space c); [exact IH | reflexivity].
Qed.

Lemma trim_blank_last (f : jsstring) : trim (f ++ js " ") = trim f.
Proof.
  unfold trim. rewrite trimStart_app.
  destruct (trimStart f) as [|c t]; [reflexivity|].
  unfold trimEnd. rewrite rev_app_distr. reflexivity.
Qed.

Lemma push_author_named (authors : list jsstring) (author : located) :
  push_author authors author =
  if named author then authors ++ [display_name author] else authors.
Proof. reflexivity. Qed.

Lemma fold_push_author (authorEls : list located) : forall acc,
  fold_left push_author authorEls acc =
  acc ++ map display_name (filter named authorEls).
Proof.
  induction authorEls as [|a els IH]; intros acc; simpl.
  - rewrite app_nil_r; reflexivity.
  - rewrite IH, push_author_named.
    destruct (named a); [simpl; rewrite <- app_assoc|]; reflexivity.
Qed.

Lemma Forall_firstn_keep {A} (P : A -> Prop) (n : nat) (l : list A) :
  Forall P l -> Forall P (firstn n l).
Proof.
  revert n; induction l as [|x l IH]; intros [|n] H; simpl; try constructor.
  - inversion H; assumption.
  - apply IH. inversion H; assumption.
Qed.

(** X1. Every display name the author loop collects, and so every name
    stored in a record, has no white space at its beginning or end. *)
Theorem X1_author_names_trimmed (article : located) :
  Forall trimmed (observed_authors article) /\
  (forall p, paper_of article = Some p -> Forall trimmed (authors p)).
Proof.
  assert (H : Forall trimmed (observed_authors article)).
  { unfold observed_authors. rewrite fold_push_author. simpl.
    apply Forall_forall. intros x Hx. apply in_map_iff in Hx.
    destruct Hx as [a [<- _]]. apply trim_trimmed. }
  split; [exact H|]. intros p Hp. apply paper_of_some in Hp.
  destruct Hp as [t [m [_ [_ [_ [_ [_ [Ha _]]]]]]]]. rewrite Ha.
  apply Forall_firstn_keep. exact H.
Qed.

(** X2. An author with neither name is skipped; one with a single name
    is listed under that name, trimmed, without the joining blank; one
    with two names that carry no outer white space is listed as the fore
    name, a blank and the last name. *)
Theorem X2_display_name_cases (authors : list jsstring) (author : located) :
  (lastName_of author = [] -> foreName_of author = [] ->
   push_author authors author = authors) /\
  (foreName_of author = [] -> lastName_of author <> [] ->
   push_author authors author = authors ++ [trim (lastName_of author)]) /\
  (lastName_of author = [] -> foreName_of author <> [] ->
   push_author authors author = authors ++ [trim (foreName_of author)]) /\
  (foreName_of author <> [] -> lastName_of author <> [] ->
   trimmed (foreName_of author) -> trimmed (lastName_of author) ->
   push_author authors author =
   authors ++ [foreName_of author ++ js " " ++ lastName_of author]).
Proof.
  rewrite push_author_named. unfold named, display_name.
  repeat split.
  - intros -> ->. reflexivity.
  - intros -> Hl. destruct (lastName_of author); [contradiction|].
    simpl nonempty. simpl orb. rewrite app_nil_l, trim_blank_first. reflexivity.
  - intros -> Hf. destruct (foreName_of author) as [|c f]; [contradiction|].
    simpl nonempty. rewrite orb_true_r, app_nil_r, trim_blank_last. reflexivity.
  - intros Hf Hl [Hf1 _] [_ Hl2].
    destruct (foreName_of author) as [|c f]; [contradiction|].
    rewrite orb_true_r. f_equal. f_equal. apply trim_fixed. split.
    + exact Hf1.
    + rewrite !rev_app_distr.
      destruct (rev (lastName_of author)) as [|d r] eqn:Er.
      * apply (f_equal (@rev _)) in Er. rewrite rev_involutive in Er.
        contradiction.
      * exact Hl2.
Qed.

(** X3. The names come in document order, one for each Author element
    that has a non-empty last or fore name, so never more than there are
    Author elements; a record keeps the first five of them. *)
Theorem X3_authors_in_document_order (article : located) :
  observed_authors article =
    map display_name (filter named (querySelectorAll (ByTag (js "Author")) article)) /\
  (List.length (observed_authors article) <=
   List.length (querySelectorAll (ByTag (js "Author")) article))%nat /\
  (forall p, paper_of article = Some p ->
     authors p =
     firstn 5 (map display_name
                 (filter named (querySelectorAll (ByTag (js "Author")) article)))).
Proof.
  assert (H : observed_authors article =
    map display_name (filter named (querySelectorAll (ByTag (js "Author")) article))).
  { unfold observed_authors. rewrite fold_push_author. reflexivity. }
  split; [exact H|]. split.
  - rewrite H, length_map. apply filter_length_le.
  - intros p Hp. apply paper_of_some in Hp.
    destruct Hp as [t [m [_ [_ [_ [_ [_ [Ha _]]]]]]]].
    rewrite Ha, H. reflexivity.
Qed.

(** ** Fields of a record and their rendering *)

Lemma text_or_nonempty (el : option located) (dflt : jsstring) :
  dflt <> [] -> text_or el dflt <> [].
Proof.
  intros Hd. unfold text_or, or_else. destruct el as [e|]; [|exact Hd].
  destruct (textContent (snd e)); simpl; [exact Hd | discriminate].
Qed.

Lemma text_or_empty_element (e : located) (dflt : jsstring) :
  textContent (snd e) = [] -> text_or (Some e) dflt = dflt.
Proof. intros H. unfold text_or, or_else. rewrite H. reflexivity. Qed.

(** X4. In every record the abstract, the journal and the year are
    non-empty: the default stands in both when the element is missing and
    when it is there with empty text.  The DOI is either absent or
    non-empty, so the card shows the DOI field exactly when the record
    has one. *)
Theorem X4_fields_never_empty (article : located) (p : Paper) :
  paper_of article = Some p ->
  abstract p <> [] /\ journal p <> [] /\ year p <> [] /\
  doi p <> Some [] /\
  meta_doi (render_card p) = doi p /\
  (forall el, querySelector (ByTag (js "AbstractText")) article = Some el ->
     textContent (snd el) = [] -> abstract p = js "No abstract available") /\
  (forall el, querySelector (Within (js "Journal") (js "Title")) article = Some el ->
     textContent (snd el) = [] -> journal p = js "Unknown Journal") /\
  (forall el, querySelector (Within (js "PubDate") (js "Year")) article = Some el ->
     textContent (snd el) = [] -> year p = js "N/A").
Proof.
  unfold paper_of.
  destruct (querySelector (ByTag (js "ArticleTitle")) article) as [t|];
    [|discriminate].
  destruct (querySelector (ByTag (js "PMID")) article) as [m|]; [|discriminate].
  intros H; injection H as <-.
  assert (Hdoi : forall o : option located,
    match o with
    | Some d => if nonempty (textContent (snd d))
                then Some (textContent (snd d)) else None
    | None => None
    end <> Some []).
  { intros [d|]; [|discriminate].
    destruct (textContent (snd d)); simpl; discriminate. }
  unfold render_card. cbn [abstract journal year doi meta_doi].
  split; [apply text_or_nonempty; discriminate|].
  split; [apply text_or_nonempty; discriminate|].
  split; [apply text_or_nonempty; discriminate|].
  split; [apply Hdoi|]. split.
  - destruct (querySelector (ByTagAttr _ _ _) article) as [d|]; [|reflexivity].
    destruct (textContent (snd d)); reflexivity.
  - repeat split; intros el -> He; apply text_or_empty_element; exact He.
Qed.

Lemma X4_fields_never_empty_witness :
  paper_of Samples.two_authors = Some Samples.two_authors_paper /\
  abstract Samples.two_authors_paper <> [].
Proof.
  split; [reflexivity|].
  apply (X4_fields_never_empty Samples.two_authors Samples.two_authors_paper).
  reflexivity.
Defined.

(** X5. A rendered abstract is never longer than 403 code units, and
    its first 400 code units are those of the stored abstract. *)
Theorem X5_rendered_abstract_bounded (a : jsstring) :
  (List.length (render_abstract a) <= 403)%nat /\
  firstn 400 (render_abstract a) = firstn 400 a.
Proof.
  unfold render_abstract, substring0.
  destruct (Nat.ltb_spec 400 (List.length a)) as [Hlt|Hle].
  - assert (Hl : List.length (firstn 400 a) = 400%nat)
      by (rewrite length_firstn; lia).
    split.
    + rewrite length_app, Hl. change (List.length (js "...")) with 3%nat. lia.
    + rewrite firstn_app, Hl, Nat.sub_diag.
      change (firstn 0 (js "...")) with (@nil code_unit).
      rewrite app_nil_r. rewrite firstn_firstn, Nat.min_id. reflexivity.
  - split; [lia | reflexivity].
Qed.

(** ** The records of a document *)

(** X6. A document gives at most one record for each PubmedArticle
    element, none when it has no such element, and, when every article
    has a title and an identifier, exactly the articles' records in
    document order. *)
Theorem X6_records_follow_articles (xmlDoc : node) :
  (List.length (parsePapers xmlDoc) <=
   List.length (document_querySelectorAll (ByTag (js "PubmedArticle")) xmlDoc))%nat /\
  (document_querySelectorAll (ByTag (js "PubmedArticle")) xmlDoc = [] ->
   parsePapers xmlDoc = []) /\
  ((forall a,
      In a (document_querySelectorAll (ByTag (js "PubmedArticle")) xmlDoc) ->
      paper_of a <> None) ->
   map Some (parsePapers xmlDoc) =
   map paper_of (document_querySelectorAll (ByTag (js "PubmedArticle")) xmlDoc)).
Proof.
  rewrite parsePapers_flat_map.
  generalize (document_querySelectorAll (ByTag (js "PubmedArticle")) xmlDoc).
  intros articles. split; [|split].
  - induction articles as [|a l IH]; simpl; [lia|].
    rewrite length_app. destruct (paper_of a); simpl; lia.
  - intros ->. reflexivity.
  - induction articles as [|a l IH]; intros Hall; simpl; [reflexivity|].
    rewrite map_app, IH by (intros x Hx; apply Hall; right; exact Hx).
    destruct (paper_of a) eqn:E; [reflexivity|].
    exfalso. apply (Hall a); [left; reflexivity | exact E].
Qed.

(** ** One call of searchPapers, as a whole *)

Lemma submit_outcome (b : Browser) (st : State) :
  trim (query st) <> [] -> outcome b st (submit b st).
Proof.
  intros Hq.
  destruct (searchTerm_of st) as [term|] eqn:He.
  2:{ rewrite (submit_uri_error b st Hq He). constructor; assumption. }
  destruct (fetch b (searchUrl_of term st)) as [r|] eqn:Hf.
  2:{ rewrite (submit_search_rejected b st term Hq He Hf).
      constructor; assumption. }
  destruct (json_body r) as [d|] eqn:Hj.
  2:{ rewrite (submit_json_rejected b st term r Hq He Hf Hj).
      eapply out_json_rejected; eassumption. }
  destruct (length_truthy (idlist_of d)) eqn:Hl.
  - rewrite (submit_with_identifiers b st term r d Hq He Hf Hj Hl).
    destruct (parseInt_or_0 (count_of d)) as [n|e0] eqn:Ec.
    2:{ eapply out_count_failed; eassumption. }
    cbv zeta.
    destruct (array_join (idlist_of d) (js ",")) as [joined|e] eqn:Ej.
    2:{ eapply out_join_failed; eassumption. }
    destruct (fetch b (fetchUrl_of joined)) as [r'|] eqn:Hf'.
    2:{ eapply out_detail_rejected; eassumption. }
    destruct (text_body r') as [xmlText|] eqn:Ht.
    + eapply out_success; eassumption.
    + eapply out_text_rejected; eassumption.
  - destruct (json_null_or_not d) as [->|Hd].
    + rewrite (submit_json_null b st term r Hq He Hf Hj).
      eapply out_json_null; eassumption.
    + rewrite (submit_no_identifiers b st term r d Hq He Hf Hj Hd Hl).
      eapply out_no_identifiers; eassumption.
Qed.

Lemma results_all_papers (st : State) :
  results (Home st) = map render_card (papers st).
Proof. unfold Home; simpl. destruct (papers st); reflexivity. Qed.

(** X7. A submission never changes the query text, the page size or the
    sort order, and on a query that is not blank it always ends with
    [loading] off, whichever way the attempt goes. *)
Theorem X7_submission_frame (b : Browser) (st : State) :
  query (ui (submit b st)) = query st /\
  maxResults (ui (submit b st)) = maxResults st /\
  sortBy (ui (submit b st)) = sortBy st /\
  (trim (query st) <> [] ->
   loading (ui (submit b st)) = false /\
   loading_banner (Home (ui (submit b st))) = false /\
   button_disabled (Home (ui (submit b st))) = false).
Proof.
  destruct (trim (query st)) as [|c q'] eqn:Et.
  - destruct (submit_blank b st Et) as [_ ->]. simpl.
    repeat split; try reflexivity; exfalso; auto.
  - assert (Hq : trim (query st) <> []) by (rewrite Et; discriminate).
    destruct (submit_outcome b st Hq); repeat split; reflexivity.
Qed.

(** X8. One submission issues at most two requests and never the same
    step twice: a second request is there only when the identifier search
    answered with identifiers that could be joined, and it is the detail
    fetch for them. *)
Theorem X8_at_most_two_requests (b : Browser) (st : State) :
  (List.length (requests (submit b st)) <= 2)%nat /\
  (forall url, nth_error (requests (submit b st)) 1 = Some url ->
     exists d joined,
       search_reply b st d /\
       length_truthy (idlist_of d) = true /\
       array_join (idlist_of d) (js ",") = Normal joined /\
       url = fetchUrl_of joined).
Proof.
  destruct (trim (query st)) as [|c q'] eqn:Et.
  - destruct (submit_blank b st Et) as [_ ->]. simpl.
    split; [lia | discriminate].
  - assert (Hq : trim (query st) <> []) by (rewrite Et; discriminate).
    destruct (submit_outcome b st Hq); simpl;
      (split; [lia|]); intros url Hu; try discriminate;
      injection Hu as <-; exists d, joined;
      (split; [exists term, r; auto|]); auto.
Qed.

Lemma element_strings_of_strings (ids : list jsstring) :
  element_strings (map JStr ids) = Normal ids.
Proof.
  induction ids as [|a ids IH]; [reflexivity|].
  simpl. rewrite IH. reflexivity.
Qed.

Lemma array_join_strings (ids : list jsstring) (sep : jsstring) :
  array_join (Some (JArr (map JStr ids))) sep = Normal (join sep ids).
Proof. unfold array_join. rewrite element_strings_of_strings. reflexivity. Qed.

Lemma join_comma_separated (ids : list jsstring) :
  ids <> [] -> comma_separated ids (join (js ",") ids).
Proof.
  induction ids as [|a [|b rest] IH]; intros Hne.
  - contradiction.
  - apply comma_one.
  - change (join (js ",") (a :: b :: rest))
      with (a ++ 0x2C :: join (js ",") (b :: rest)).
    apply comma_more. apply IH. discriminate.
Qed.

(** X9. When the identifier search answers with a non-empty list of
    identifier strings and a count that can be read, the requests of the
    attempt are the search and then the detail fetch, whose id parameter
    is these identifiers in the order received with one comma between
    neighbours. *)
Theorem X9_detail_request_lists_identifiers
    (b : Browser) (st : State) (d : json) (ids : list jsstring) :
  trim (query st) <> [] ->
  search_reply b st d ->
  idlist_of d = Some (JArr (map JStr ids)) ->
  ids <> [] ->
  (exists n, parseInt_or_0 (count_of d) = Normal n) ->
  exists term joined,
    searchTerm_of st = Some term /\
    comma_separated ids joined /\
    requests (submit b st) =
    [searchUrl_of term st; efetch_prefix ++ joined ++ js "&retmode=xml"].
Proof.
  intros Hq [term [r [He [Hf Hj]]]] Hi Hne [n Hc].
  exists term, (join (js ",") ids). split; [exact He|].
  split; [apply join_comma_separated; exact Hne|].
  assert (Hl : length_truthy (idlist_of d) = true).
  { rewrite Hi. destruct ids; [contradiction | reflexivity]. }
  rewrite (submit_with_identifiers b st term r d Hq He Hf Hj Hl), Hc. cbv zeta.
  rewrite Hi, array_join_strings.
  destruct (fetch b (fetchUrl_of _)) as [r'|]; [|reflexivity].
  destruct (text_body r'); reflexivity.
Qed.

Lemma X9_detail_request_lists_identifiers_witness :
  trim (query Scenarios.aspirin) <> [] /\
  search_reply two_hits Scenarios.aspirin
    (Scenarios.envelope "2" ["7"%string; "9"%string]) /\
  (exists term joined,
    searchTerm_of Scenarios.aspirin = Some term /\
    comma_separated [js "7"; js "9"] joined /\
    requests (submit two_hits Scenarios.aspirin) =
    [searchUrl_of term Scenarios.aspirin;
     efetch_prefix ++ joined ++ js "&retmode=xml"]) /\
  requests (submit two_hits Scenarios.aspirin) =
    [Scenarios.aspirin_url;
     js "https://eutils.ncbi.nlm.nih.gov/entrez/eutils/efetch.fcgi?db=pubmed&id=7,9&retmode=xml"].
Proof.
  assert (Hq : trim (query Scenarios.aspirin) <> [])
    by (intros H; vm_compute in H; discriminate).
  assert (Hr : search_reply two_hits Scenarios.aspirin
                 (Scenarios.envelope "2" ["7"%string; "9"%string])).
  { exists Scenarios.aspirin_term.
    exists (Scenarios.json_reply 200
              (Scenarios.envelope "2" ["7"%string; "9"%string])).
    repeat split; reflexivity. }
  split; [exact Hq|]. split; [exact Hr|]. split; [|reflexivity].
  apply (X9_detail_request_lists_identifiers two_hits Scenarios.aspirin
           (Scenarios.envelope "2" ["7"%string; "9"%string])
           [js "7"; js "9"] Hq Hr).
  - reflexivity.
  - discriminate.
  - exists (Finite 2). reflexivity.
Defined.

(** A count that cannot be read ends the attempt before the detail
    fetch, with the stored count untouched. *)
Example unreadable_count :
  submit
    (Scenarios.provider
       (Some (Scenarios.json_reply 200
                (JObj [(js "esearchresult",
                        JObj [(js "count", JObj [(js "toString", JNum (js "1"))]);
                              (js "idlist", JArr [JStr (js "7")])])])))
       (Some (Scenarios.text_reply 200 Scenarios.detail_payload)))
    Scenarios.aspirin =
  {| ui := settled Scenarios.aspirin fetch_error_message (Finite 0) [];
     requests := [Scenarios.aspirin_url];
     console := [TypeError] |}.
Proof. reflexivity. Qed.

Lemma success_shape
    (b : Browser) (st : State) (n : number) (ps : list Paper) :
  trim (query st) <> [] ->
  search_succeeds b st n ps ->
  ui (submit b st) = settled st [] n ps /\ console (submit b st) = [].
Proof.
  intros Hq [d [joined [r' [xmlText
    [[term [r [He [Hf Hj]]]] [Hl [Ec [Ej [Hf' [Ht ->]]]]]]]]]].
  rewrite (submit_with_identifiers b st term r d Hq He Hf Hj Hl), Ec. cbv zeta.
  rewrite Ej, Hf', Ht. split; reflexivity.
Qed.

(** X10. When both steps go through (the count is read, the identifiers
    are joined, the detail fetch and its body arrive), the attempt ends
    with no error message, the count the identifier search reported and
    the records parsed from the detail payload in place of whatever was
    shown before; the page shows one card per record, in order, and the
    statistics line exactly when the count is above zero. *)
Theorem X10_successful_search
    (b : Browser) (st : State) (n : number) (ps : list Paper) :
  trim (query st) <> [] ->
  search_succeeds b st n ps ->
  ui (submit b st) = settled st [] n ps /\
  console (submit b st) = [] /\
  error_box (Home (ui (submit b st))) = None /\
  results (Home (ui (submit b st))) = map render_card ps /\
  (is_positive n ->
   stats (Home (ui (submit b st))) = Some (n, List.length ps)) /\
  (~ is_positive n -> stats (Home (ui (submit b st))) = None).
Proof.
  intros Hq Hs. rewrite results_all_papers.
  destruct (success_shape b st n ps Hq Hs) as [-> ->].
  split; [reflexivity|]. split; [reflexivity|]. split; [reflexivity|].
  split; [reflexivity|].
  unfold Home, settled; simpl. rewrite andb_true_r. split.
  - intros Hpos. rewrite (positive_spec n Hpos). reflexivity.
  - intros Hneg. destruct (positive n) eqn:E; [|reflexivity].
    exfalso. apply Hneg. apply positive_is_positive. exact E.
Qed.

Lemma X10_successful_search_witness :
  trim (query Scenarios.aspirin) <> [] /\
  search_succeeds Scenarios.healthy Scenarios.aspirin (Finite 3)
    [Scenarios.willow_paper] /\
  ui (submit Scenarios.healthy Scenarios.aspirin)
    = settled Scenarios.aspirin [] (Finite 3) [Scenarios.willow_paper] /\
  stats (Home (ui (submit Scenarios.healthy Scenarios.aspirin)))
    = Some (Finite 3, 1%nat).
Proof.
  assert (Hq : trim (query Scenarios.aspirin) <> [])
    by (intros H; vm_compute in H; discriminate).
  assert (Hs : search_succeeds Scenarios.healthy Scenarios.aspirin (Finite 3)
                 [Scenarios.willow_paper]).
  { exists (Scenarios.envelope "3" ["7"%string]), (js "7").
    exists (Scenarios.text_reply 200 Scenarios.detail_payload).
    exists (js Scenarios.detail_payload).
    split.
    { exists Scenarios.aspirin_term.
      exists (Scenarios.json_reply 200 (Scenarios.envelope "3" ["7"%string])).
      repeat split; reflexivity. }
    repeat split; reflexivity. }
  split; [exact Hq|]. split; [exact Hs|].
  destruct (X10_successful_search Scenarios.healthy Scenarios.aspirin (Finite 3)
              [Scenarios.willow_paper] Hq Hs) as [Hu [_ [_ [_ [Hst _]]]]].
  split; [exact Hu|]. apply Hst. reflexivity.
Defined.

(** X11. After a submission of a query that is not blank the error
    message is empty, the no-results message or the fetch-failure
    message, and an error message and paper cards are never shown
    together. *)
Theorem X11_error_or_cards (b : Browser) (st : State) :
  trim (query st) <> [] ->
  (error (ui (submit b st)) = [] \/
   error (ui (submit b st)) = no_results_message \/
   error (ui (submit b st)) = fetch_error_message) /\
  (papers (ui (submit b st)) = [] \/ error (ui (submit b st)) = []) /\
  (results (Home (ui (submit b st))) = [] \/
   error_box (Home (ui (submit b st))) = None).
Proof.
  intros Hq. rewrite results_all_papers.
  destruct (submit_outcome b st Hq); cbn [ui settled error papers];
    repeat split; auto.
Qed.

Lemma X11_error_or_cards_witness :
  trim (query Scenarios.aspirin) <> [] /\
  (results (Home (ui (submit Scenarios.healthy Scenarios.aspirin))) = [] \/
   error_box (Home (ui (submit Scenarios.healthy Scenarios.aspirin))) = None).
Proof.
  assert (Hq : trim (query Scenarios.aspirin) <> [])
    by (intros H; vm_compute in H; discriminate).
  split; [exact Hq|].
  destruct (X11_error_or_cards Scenarios.healthy Scenarios.aspirin Hq)
    as [_ [_ H]].
  exact H.
Defined.

(** X12. When both steps go through but the detail payload yields no
    record, the page shows neither an error nor a card: it falls back to
    the hint that invites to enter a search term. *)
Theorem X12_empty_success_shows_hint (b : Browser) (st : State) (n : number) :
  trim (query st) <> [] ->
  search_succeeds b st n [] ->
  error_box (Home (ui (submit b st))) = None /\
  results (Home (ui (submit b st))) = [] /\
  no_results_hint (Home (ui (submit b st))) = true.
Proof.
  intros Hq Hs.
  destruct (success_shape b st n [] Hq Hs) as [-> _].
  repeat split; reflexivity.
Qed.

Lemma X12_empty_success_shows_hint_witness :
  trim (query Scenarios.aspirin) <> [] /\
  search_succeeds Scenarios.detail_500 Scenarios.aspirin (Finite 42) [] /\
  no_results_hint (Home (ui (submit Scenarios.detail_500 Scenarios.aspirin))) = true.
Proof.
  assert (Hq : trim (query Scenarios.aspirin) <> [])
    by (intros H; vm_compute in H; discriminate).
  assert (Hs : search_succeeds Scenarios.detail_500 Scenarios.aspirin
                 (Finite 42) []).
  { exists (Scenarios.envelope "42" ["7"%string]), (js "7").
    exists (Scenarios.text_reply 500 Scenarios.error_payload).
    exists (js Scenarios.error_payload).
    split.
    { exists Scenarios.aspirin_term.
      exists (Scenarios.json_reply 200 (Scenarios.envelope "42" ["7"%string])).
      repeat split; reflexivity. }
    repeat split; reflexivity. }
  split; [exact Hq|]. split; [exact Hs|].
  apply (X12_empty_success_shows_hint Scenarios.detail_500 Scenarios.aspirin
           (Finite 42) Hq Hs).
Defined.

(** X13. Search data that is not null and has no identifier list at all
    (no [esearchresult], or one that is not an object or has no [idlist])
    ends the attempt like an empty list: the no-results message, the one
    request, the stored count untouched and nothing on the console. *)
Theorem X13_missing_idlist_is_no_results
    (b : Browser) (st : State) (d : json) :
  trim (query st) <> [] ->
  search_reply b st d ->
  d <> JNull ->
  idlist_of d = None ->
  error (ui (submit b st)) = no_results_message /\
  papers (ui (submit b st)) = [] /\
  resultCount (ui (submit b st)) = resultCount st /\
  console (submit b st) = [] /\
  exists term, searchTerm_of st = Some term /\
               requests (submit b st) = [searchUrl_of term st].
Proof.
  intros Hq [term [r [He [Hf Hj]]]] Hd Hi.
  assert (Hl : length_truthy (idlist_of d) = false) by (rewrite Hi; reflexivity).
  rewrite (submit_no_identifiers b st term r d Hq He Hf Hj Hd Hl).
  repeat split; try reflexivity. exists term. split; [exact He | reflexivity].
Qed.

Lemma X13_missing_idlist_is_no_results_witness :
  trim (query Scenarios.aspirin) <> [] /\
  search_reply Scenarios.rate_limited Scenarios.aspirin
    (JObj [(js "error", JStr (js "API rate limit exceeded"))]) /\
  error (ui (submit Scenarios.rate_limited Scenarios.aspirin)) = no_results_message.
Proof.
  assert (Hq : trim (query Scenarios.aspirin) <> [])
    by (intros H; vm_compute in H; discriminate).
  assert (Hr : search_reply Scenarios.rate_limited Scenarios.aspirin
                 (JObj [(js "error", JStr (js "API rate limit exceeded"))])).
  { exists Scenarios.aspirin_term.
    exists (Scenarios.json_reply 429
              (JObj [(js "error", JStr (js "API rate limit exceeded"))])).
    repeat split; reflexivity. }
  split; [exact Hq|]. split; [exact Hr|].
  apply (X13_missing_idlist_is_no_results Scenarios.rate_limited Scenarios.aspirin
           (JObj [(js "error", JStr (js "API rate limit exceeded"))]) Hq Hr).
  - discriminate.
  - reflexivity.
Defined.

(** X14. Each attempt that ends with the fetch-failure message writes
    exactly one entry to the console, the exception caught; an attempt
    that ends otherwise writes none. *)
Theorem X14_one_diagnostic_per_failure (b : Browser) (st : State) :
  trim (query st) <> [] ->
  (error (ui (submit b st)) = fetch_error_message /\
   exists e, console (submit b st) = [e]) \/
  (error (ui (submit b st)) <> fetch_error_message /\
   console (submit b st) = []).
Proof.
  intros Hq.
  destruct (submit_outcome b st Hq); cbn [ui settled error console];
    try (left; split; [reflexivity | eexists; reflexivity]);
    right; (split; [|reflexivity]);
    intros Hmsg; vm_compute in Hmsg; discriminate.
Qed.

Lemma X14_one_diagnostic_per_failure_witness :
  trim (query Scenarios.aspirin) <> [] /\
  console (submit Scenarios.offline Scenarios.aspirin) = [NetworkError].
Proof.
  assert (Hq : trim (query Scenarios.aspirin) <> [])
    by (intros H; vm_compute in H; discriminate).
  split; [exact Hq|].
  destruct (X14_one_diagnostic_per_failure Scenarios.offline Scenarios.aspirin Hq)
    as [[_ [e He]]|[Hne _]].
  - reflexivity.
  - exfalso. apply Hne. reflexivity.
Defined.

(** ** The count of the identifier search *)

Lemma decimal_digit_range (c : code_unit) :
  is_decimal_digit c = true -> 0x30 <= c <= 0x39.
Proof.
  unfold is_decimal_digit. rewrite andb_true_iff, !N.leb_le. tauto.
Qed.

Lemma decimal_digit_not_space (c : code_unit) :
  is_decimal_digit c = true -> is_white_space c = false.
Proof.
  intros H. apply decimal_digit_range in H.
  destruct (is_white_space c) eqn:E; [|reflexivity]. exfalso.
  unfold is_white_space in E.
  repeat (apply orb_true_iff in E; destruct E as [E|E]);
    try (apply N.eqb_eq in E; lia).
  apply andb_true_iff in E. destruct E as [E _]. apply N.leb_le in E. lia.
Qed.

Lemma digit_value_decimal (c : code_unit) :
  is_decimal_digit c = true -> digit_value 10 c = Some (c - 0x30).
Proof.
  intros H. unfold digit_value. unfold is_decimal_digit in H. rewrite H.
  apply decimal_digit_range in H.
  destruct (N.ltb_spec (c - 0x30) 10); [reflexivity | lia].
Qed.

Lemma digits_decimal (s : jsstring) : forall acc,
  forallb is_decimal_digit s = true ->
  digits 10 s (Some acc) =
  Some (fold_left (fun a c => 10 * a + (c - 0x30)) s acc).
Proof.
  induction s as [|c s IH]; intros acc H; simpl; [reflexivity|].
  simpl in H. apply andb_true_iff in H. destruct H as [Hc Hs].
  rewrite (digit_value_decimal c Hc). apply IH. exact Hs.
Qed.

Lemma parse_integer_decimal (s : jsstring) :
  s <> [] ->
  forallb is_decimal_digit s = true ->
  parse_integer s = Some (Z.of_N (decimal_value s)).
Proof.
  intros Hne H. destruct s as [|c s]; [contradiction|].
  simpl in H. apply andb_true_iff in H. destruct H as [Hc Hs].
  pose proof (decimal_digit_range c Hc) as Hr.
  unfold parse_integer. simpl trimStart. rewrite (decimal_digit_not_space c Hc).
  destruct (N.eqb_spec c 0x2D); [lia|].
  destruct (N.eqb_spec c 0x2B); [lia|].
  assert (Hd : digits 10 (c :: s) None = Some (decimal_value (c :: s))).
  { simpl. rewrite (digit_value_decimal c Hc).
    rewrite (digits_decimal s _ Hs). reflexivity. }
  destruct s as [|x r].
  - rewrite Hd. reflexivity.
  - simpl in Hs. apply andb_true_iff in Hs. destruct Hs as [Hx _].
    apply decimal_digit_range in Hx.
    destruct (N.eqb_spec x 0x78); [lia|].
    destruct (N.eqb_spec x 0x58); [lia|].
    rewrite andb_false_r. rewrite Hd. reflexivity.
Qed.

(** *** The Number value for an integer *)

Lemma size_above (n k : N) : k < N.size n -> 2 ^ k <= n.
Proof.
  intros H. destruct (N.eq_dec n 0) as [->|Hn]; [simpl in H; lia|].
  rewrite (N.size_log2 n Hn) in H.
  transitivity (2 ^ N.log2 n).
  - apply N.pow_le_mono_r; lia.
  - apply N.log2_spec. lia.
Qed.

(** Up to 2^53 every natural number is its own Number value. *)
Lemma nearest_double_exact (n : N) :
  n <= 2 ^ 53 -> nearest_double n = Some n.
Proof.
  intros H. unfold nearest_double.
  destruct (N.leb_spec (N.size n) 53) as [Hs|Hs]; [reflexivity|].
  pose proof (size_above n 53 Hs) as H'.
  assert (E : n = 2 ^ 53) by lia. rewrite E. vm_compute. reflexivity.
Qed.

(** From 2^1024 on there is no finite Number value. *)
Lemma nearest_double_overflow (n : N) :
  2 ^ 1024 <= n -> nearest_double n = None.
Proof.
  intros H. unfold nearest_double.
  assert (Hn : n <> 0).
  { intros ->.
    assert (0 < 2 ^ 1024) by (apply N.neq_0_lt_0, N.pow_nonzero; lia). lia. }
  assert (Hlog : 1024 <= N.log2 n).
  { rewrite <- (N.log2_pow2 1024) by lia. apply N.log2_le_mono. exact H. }
  rewrite (N.size_log2 n Hn).
  destruct (N.leb_spec (N.succ (N.log2 n)) 53) as [Hs|Hs]; [lia|].
  cbv zeta.
  set (e := N.succ (N.log2 n) - 53).
  set (q := N.shiftr n e).
  set (r := N.land n (N.ones e)).
  set (q' := if (N.shiftl 1 (e - 1) <? r) || ((r =? N.shiftl 1 (e - 1)) && N.odd q)
             then q + 1 else q).
  assert (Hq : 2 ^ 52 <= q).
  { unfold q. rewrite N.shiftr_div_pow2.
    apply N.div_le_lower_bound; [apply N.pow_nonzero; lia|].
    rewrite <- N.pow_add_r.
    replace (e + 52) with (N.log2 n) by (unfold e; lia).
    apply N.log2_spec. lia. }
  assert (Hq' : q <= q') by (unfold q'; destruct (_ || _); lia).
  assert (Hm : 2 ^ 1024 <= N.shiftl q' e).
  { rewrite N.shiftl_mul_pow2.
    transitivity (2 ^ 52 * 2 ^ e).
    - rewrite <- N.pow_add_r. apply N.pow_le_mono_r; [lia|]. unfold e. lia.
    - apply N.mul_le_mono_r. lia. }
  destruct (N.ltb_spec (N.shiftl q' e) (2 ^ 1024)); [lia | reflexivity].
Qed.

(** In between, the value is a multiple of the spacing at that size and
    lies within half a spacing of the number. *)
Lemma nearest_double_nearest (n m : N) :
  53 < N.size n ->
  nearest_double n = Some m ->
  exists k, m = k * 2 ^ (N.size n - 53) /\
            2 * m <= 2 * n + 2 ^ (N.size n - 53) /\
            2 * n <= 2 * m + 2 ^ (N.size n - 53).
Proof.
  intros Hs. unfold nearest_double.
  destruct (N.leb_spec (N.size n) 53) as [Hle|_]; [lia|]. cbv zeta.
  set (e := N.size n - 53). assert (He : 1 <= e) by (unfold e; lia).
  rewrite N.shiftr_div_pow2, N.land_ones, !N.shiftl_mul_pow2, N.mul_1_l.
  assert (Hpos : 2 ^ e <> 0) by (apply N.pow_nonzero; lia).
  pose proof (N.div_mod n (2 ^ e) Hpos) as Hdm.
  pose proof (N.mod_lt n (2 ^ e) Hpos) as Hlt.
  assert (Hhalf : 2 ^ e = 2 * 2 ^ (e - 1)).
  { rewrite <- N.pow_succ_r'. f_equal. lia. }
  set (q := n / 2 ^ e) in *. set (r := n mod 2 ^ e) in *.
  set (h := 2 ^ (e - 1)) in *.
  destruct ((h <? r) || ((r =? h) && N.odd q)) eqn:Eup.
  - destruct (N.ltb_spec ((q + 1) * 2 ^ e) (2 ^ 1024)); [|discriminate].
    intros Hm; injection Hm as <-. exists (q + 1). split; [reflexivity|].
    apply orb_true_iff in Eup.
    assert (h <= r).
    { destruct Eup as [E|E]; [apply N.ltb_lt in E; lia|].
      apply andb_true_iff in E. destruct E as [E _]. apply N.eqb_eq in E. lia. }
    nia.
  - destruct (N.ltb_spec (q * 2 ^ e) (2 ^ 1024)); [|discriminate].
    intros Hm; injection Hm as <-. exists q. split; [reflexivity|].
    apply orb_false_iff in Eup. destruct Eup as [E _]. apply N.ltb_ge in E.
    nia.
Qed.

Lemma to_number_exact (v : N) :
  v <= 2 ^ 53 -> to_number (Z.of_N v) = Finite (Z.of_N v).
Proof.
  intros H. destruct v as [|p]; [reflexivity|].
  simpl. rewrite (nearest_double_exact (N.pos p) H). reflexivity.
Qed.

Lemma to_number_overflow (v : N) :
  2 ^ 1024 <= v -> to_number (Z.of_N v) = Infinite false.
Proof.
  intros H. destruct v as [|p].
  - exfalso.
    assert (0 < 2 ^ 1024) by (apply N.neq_0_lt_0, N.pow_nonzero; lia). lia.
  - simpl. rewrite (nearest_double_overflow (N.pos p) H). reflexivity.
Qed.

(** X15. Once the identifier search has answered with identifiers, the
    count in state is read off its [count] field whatever happens next: a
    string of decimal digits that writes a number up to 2^53 gives that
    number, one that writes 2^1024 or more gives the positive infinity,
    and a missing field gives 0, which keeps the statistics line hidden. *)
Theorem X15_count_field (b : Browser) (st : State) (d : json) :
  trim (query st) <> [] ->
  search_reply b st d ->
  length_truthy (idlist_of d) = true ->
  (forall s, count_of d = Some (JStr s) -> s <> [] ->
     forallb is_decimal_digit s = true ->
     (decimal_value s <= 2 ^ 53 ->
      resultCount (ui (submit b st)) = Finite (Z.of_N (decimal_value s))) /\
     (2 ^ 1024 <= decimal_value s ->
      resultCount (ui (submit b st)) = Infinite false)) /\
  (count_of d = None ->
   resultCount (ui (submit b st)) = Finite 0 /\
   stats (Home (ui (submit b st))) = None).
Proof.
  intros Hq [term [r [He [Hf Hj]]]] Hl.
  assert (Hn : forall n, parseInt_or_0 (count_of d) = Normal n ->
                         resultCount (ui (submit b st)) = n).
  { intros n Hc.
    rewrite (submit_with_identifiers b st term r d Hq He Hf Hj Hl), Hc. cbv zeta.
    destruct (array_join _ _) as [joined|e]; [|reflexivity].
    destruct (fetch b (fetchUrl_of joined)) as [r'|]; [|reflexivity].
    destruct (text_body r'); reflexivity. }
  split.
  - intros s Hc Hne Hs.
    assert (Hp : parseInt_or_0 (count_of d)
                 = Normal (to_number (Z.of_N (decimal_value s)))).
    { rewrite Hc.
      change (parseInt_or_0 (Some (JStr s)))
        with (Normal match option_map to_number (parse_integer s) with
                     | Some n => n
                     | None => Finite 0
                     end).
      rewrite (parse_integer_decimal s Hne Hs). reflexivity. }
    rewrite (Hn _ Hp). split; intros Hv.
    + apply to_number_exact. exact Hv.
    + apply to_number_overflow. exact Hv.
  - intros Hc.
    assert (Hp : parseInt_or_0 (count_of d) = Normal (Finite 0))
      by (rewrite Hc; reflexivity).
    pose proof (Hn _ Hp) as H0. split; [exact H0|].
    unfold Home; simpl. rewrite H0. reflexivity.
Qed.

Lemma X15_count_field_witness :
  trim (query Scenarios.aspirin) <> [] /\
  search_reply Scenarios.healthy Scenarios.aspirin
    (Scenarios.envelope "3" ["7"%string]) /\
  resultCount (ui (submit Scenarios.healthy Scenarios.aspirin)) = Finite 3.
Proof.
  assert (Hq : trim (query Scenarios.aspirin) <> [])
    by (intros H; vm_compute in H; discriminate).
  assert (Hr : search_reply Scenarios.healthy Scenarios.aspirin
                 (Scenarios.envelope "3" ["7"%string])).
  { exists Scenarios.aspirin_term.
    exists (Scenarios.json_reply 200 (Scenarios.envelope "3" ["7"%string])).
    repeat split; reflexivity. }
  split; [exact Hq|]. split; [exact Hr|].
  destruct (X15_count_field Scenarios.healthy Scenarios.aspirin
              (Scenarios.envelope "3" ["7"%string]) Hq Hr eq_refl) as [H _].
  destruct (H (js "3")) as [Hsmall _].
  - reflexivity.
  - discriminate.
  - reflexivity.
  - apply Hsmall. vm_compute. discriminate.
Defined.

(** ** The search term *)

Lemma encode_unreserved (s : jsstring) :
  forallb is_unreserved s = true -> encodeURIComponent s = Some s.
Proof.
  induction s as [|c s IH]; [reflexivity|].
  simpl. intros H. apply andb_true_iff in H. destruct H as [Hc Hs].
  rewrite Hc, (IH Hs). reflexivity.
Qed.

(** X16. A query made only of letters, digits and the marks
    [-_.!~*'()] goes into the search URL as it is, followed by the
    encoded domain filter. *)
Theorem X16_plain_query_verbatim (b : Browser) (st : State) :
  trim (query st) <> [] ->
  forallb is_unreserved (query st) = true ->
  exists later,
    requests (submit b st) =
    (esearch_prefix ++ query st ++ encoded_domain_filter ++ js "&retmax="
     ++ maxResults st ++ js "&retmode=json&sort=" ++ sortBy st) :: later.
Proof.
  intros Hq Hu.
  assert (Hterm : searchTerm_of st = Some (query st ++ encoded_domain_filter)).
  { unfold searchTerm_of.
    rewrite (encode_app _ _ _ (encode_unreserved _ Hu)), domain_filter_encoded.
    reflexivity. }
  destruct (first_request b st _ Hq Hterm) as [later Hr].
  exists later. rewrite Hr. unfold searchUrl_of.
  rewrite <- !app_assoc. reflexivity.
Qed.

Lemma X16_plain_query_verbatim_witness :
  trim (query Scenarios.aspirin) <> [] /\
  forallb is_unreserved (query Scenarios.aspirin) = true /\
  exists later,
    requests (submit Scenarios.offline Scenarios.aspirin) =
    (esearch_prefix ++ query Scenarios.aspirin ++ encoded_domain_filter
     ++ js "&retmax=" ++ maxResults Scenarios.aspirin
     ++ js "&retmode=json&sort=" ++ sortBy Scenarios.aspirin) :: later.
Proof.
  assert (Hq : trim (query Scenarios.aspirin) <> [])
    by (intros H; vm_compute in H; discriminate).
  split; [exact Hq|]. split; [reflexivity|].
  apply (X16_plain_query_verbatim Scenarios.offline Scenarios.aspirin Hq).
  reflexivity.
Defined.

Lemma lor_lt_256 (a b : N) : a < 256 -> b < 256 -> N.lor a b < 256.
Proof.
  intros Ha Hb.
  destruct (N.eq_dec (N.lor a b) 0) as [Hz|Hz]; [rewrite Hz; lia|].
  change 256 with (2 ^ 8). apply N.log2_lt_pow2; [lia|].
  rewrite N.log2_lor. apply N.max_lub_lt.
  - destruct (N.eq_dec a 0) as [->|Hza]; [simpl; lia|].
    apply N.log2_lt_pow2; [lia | exact Ha].
  - destruct (N.eq_dec b 0) as [->|Hzb]; [simpl; lia|].
    apply N.log2_lt_pow2; [lia | exact Hb].
Qed.

Lemma land_3F_lt (a : N) : N.land a 0x3F < 256.
Proof.
  change 0x3F with (N.ones 6). rewrite N.land_ones. change (2 ^ 6) with 64.
  pose proof (N.mod_lt a 64) as H. lia.
Qed.

Lemma shiftr_lt_256 (a k : N) : a < 256 * 2 ^ k -> N.shiftr a k < 256.
Proof.
  intros H. rewrite N.shiftr_div_pow2.
  apply N.Div0.div_lt_upper_bound. lia.
Qed.

Lemma utf8_octets (cp : N) :
  cp < 0x110000 -> Forall (fun o => o < 256) (utf8 cp).
Proof.
  intros Hcp. unfold utf8.
  destruct (N.ltb_spec cp 0x80); [repeat constructor; lia|].
  destruct (N.ltb_spec cp 0x800).
  { repeat constructor; apply lor_lt_256; try lia;
      [apply shiftr_lt_256; simpl; lia | apply land_3F_lt]. }
  destruct (N.ltb_spec cp 0x10000).
  { repeat constructor; apply lor_lt_256; try lia;
      try apply land_3F_lt. apply shiftr_lt_256; simpl; lia. }
  repeat constructor; apply lor_lt_256; try lia;
    try apply land_3F_lt. apply shiftr_lt_256; simpl; lia.
Qed.

Lemma pair_code_point_bound (hi lo : code_unit) :
  is_high_surrogate hi = true -> is_low_surrogate lo = true ->
  pair_code_point hi lo < 0x110000.
Proof.
  unfold is_high_surrogate, is_low_surrogate, pair_code_point.
  rewrite !andb_true_iff, !N.leb_le. intros [H1 H2] [H3 H4].
  rewrite N.shiftl_mul_pow2. change (2 ^ 10) with 1024. lia.
Qed.

Lemma hex_digit_upper (d : N) : d < 16 -> is_upper_hex (hex_digit d) = true.
Proof.
  intros Hd. unfold hex_digit, is_upper_hex.
  destruct (N.ltb_spec d 10); apply orb_true_iff; [left|right];
    apply andb_true_iff; split; apply N.leb_le; lia.
Qed.

Lemma percent_escaped (o : N) (s : jsstring) :
  o < 256 -> escaped s -> escaped (percent o ++ s).
Proof.
  intros Ho Hs.
  change (percent o ++ s)
    with (0x25 :: hex_digit (N.shiftr o 4) :: hex_digit (N.land o 0xF) :: s).
  apply escaped_octet; [| |exact Hs].
  - apply hex_digit_upper. rewrite N.shiftr_div_pow2.
    apply N.Div0.div_lt_upper_bound. change (2 ^ 4) with 16. lia.
  - apply hex_digit_upper. change 0xF with (N.ones 4). rewrite N.land_ones.
    change (2 ^ 4) with 16. apply N.mod_lt. lia.
Qed.

Lemma percent_all_escaped (octets : list N) (s : jsstring) :
  Forall (fun o => o < 256) octets -> escaped s ->
  escaped (percent_all octets ++ s).
Proof.
  intros Ho Hs. induction Ho as [|o octets Hlt _ IH]; [exact Hs|].
  change (percent_all (o :: octets)) with (percent o ++ percent_all octets).
  rewrite <- app_assoc. apply percent_escaped; assumption.
Qed.

Lemma encode_escaped_len (n : nat) : forall s e,
  (List.length s <= n)%nat ->
  Forall (fun c => c < 0x10000) s ->
  encodeURIComponent s = Some e ->
  escaped e.
Proof.
  induction n as [|n IH]; intros s e Hn Hv Hs.
  - destruct s; [|simpl in Hn; lia]. injection Hs as <-. constructor.
  - destruct s as [|c rest]; [injection Hs as <-; constructor|].
    simpl in Hn, Hs. inversion Hv as [|? ? Hc Hrest]; subst.
    destruct (is_unreserved c) eqn:Eu.
    { destruct (encodeURIComponent rest) as [er|] eqn:Er; [|discriminate].
      injection Hs as <-. apply escaped_plain; [exact Eu|].
      apply (IH rest); [lia | exact Hrest | exact Er]. }
    destruct (is_high_surrogate c) eqn:Eh.
    { destruct rest as [|d rest']; [discriminate|].
      destruct (is_low_surrogate d) eqn:El; [|discriminate].
      destruct (encodeURIComponent rest') as [er|] eqn:Er; [|discriminate].
      injection Hs as <-. apply percent_all_escaped.
      - apply utf8_octets. apply pair_code_point_bound; assumption.
      - inversion Hrest; subst.
        apply (IH rest'); [simpl in Hn; lia | assumption | exact Er]. }
    destruct (is_low_surrogate c); [discriminate|].
    destruct (encodeURIComponent rest) as [er|] eqn:Er; [|discriminate].
    injection Hs as <-. apply percent_all_escaped.
    + apply utf8_octets. lia.
    + apply (IH rest); [lia | exact Hrest | exact Er].
Qed.

(** X17. Whatever 16-bit code units the text holds, what
    [encodeURIComponent] returns is made only of unreserved characters
    and of escapes [%XX] with two upper-case hexadecimal digits; so is
    the term parameter of every identifier search. *)
Theorem X17_encoded_term_is_escaped (st : State) (term : jsstring) :
  Forall (fun c => c < 0x10000) (query st) ->
  searchTerm_of st = Some term ->
  escaped term.
Proof.
  intros Hv Ht. unfold searchTerm_of in Ht.
  apply (encode_escaped_len _ _ _ (Nat.le_refl _)) in Ht; [exact Ht|].
  apply Forall_app. split; [exact Hv|].
  apply Forall_forall. intros c Hc.
  assert (H : forallb (fun c => c <? 0x10000) domain_filter = true)
    by (vm_compute; reflexivity).
  rewrite forallb_forall in H. apply N.ltb_lt. apply H. exact Hc.
Qed.

Lemma X17_encoded_term_is_escaped_witness :
  Forall (fun c => c < 0x10000) (query Scenarios.aspirin) /\
  searchTerm_of Scenarios.aspirin = Some Scenarios.aspirin_term /\
  escaped Scenarios.aspirin_term.
Proof.
  assert (Hv : Forall (fun c => c < 0x10000) (query Scenarios.aspirin)).
  { apply Forall_forall. intros c Hc.
    assert (H : forallb (fun c => c <? 0x10000) (query Scenarios.aspirin) = true)
      by (vm_compute; reflexivity).
    rewrite forallb_forall in H. apply N.ltb_lt. apply H. exact Hc. }
  split; [exact Hv|]. split; [reflexivity|].
  apply (X17_encoded_term_is_escaped Scenarios.aspirin Scenarios.aspirin_term Hv).
  reflexivity.
Defined.

(** ** Sessions *)

Lemma paper_of_ok (article : located) (p : Paper) :
  paper_of article = Some p -> paper_ok p.
Proof.
  unfold paper_of.
  destruct (querySelector (ByTag (js "ArticleTitle")) article) as [t|];
    [|discriminate].
  destruct (querySelector (ByTag (js "PMID")) article) as [m|]; [|discriminate].
  intros H; injection H as <-. unfold paper_ok.
  cbn [id pmid authors abstract journal year doi].
  split; [reflexivity|]. split.
  { destruct (observed_authors article) as [|? [|? [|? [|? [|? ?]]]]];
      simpl; lia. }
  split; [apply text_or_nonempty; discriminate|].
  split; [apply text_or_nonempty; discriminate|].
  split; [apply text_or_nonempty; discriminate|].
  destruct (querySelector (ByTagAttr _ _ _) article) as [d|]; [|discriminate].
  destruct (textContent (snd d)); simpl; discriminate.
Qed.

Lemma parsePapers_ok (xmlDoc : node) : Forall paper_ok (parsePapers xmlDoc).
Proof.
  apply Forall_forall. intros p Hp. apply parsePapers_origin in Hp.
  destruct Hp as [a [_ Ha]]. exact (paper_of_ok a p Ha).
Qed.

Lemma handle_at_rest (st : State) (e : event) :
  at_rest st -> at_rest (handle st e).
Proof.
  intros [Hl [Hm [Hs [He [Hx Hp]]]]].
  destruct e as [value|v|v|b]; simpl.
  - repeat split; assumption.
  - repeat split; try assumption. exists v; reflexivity.
  - repeat split; try assumption. exists v; reflexivity.
  - destruct (trim (query st)) as [|c q'] eqn:Et.
    + destruct (submit_blank b st Et) as [_ ->]. simpl.
      repeat split; assumption.
    + assert (Hq : trim (query st) <> []) by (rewrite Et; discriminate).
      destruct (submit_outcome b st Hq); cbn [ui]; unfold at_rest;
        cbn [settled loading maxResults sortBy error papers];
        repeat split; auto; try apply parsePapers_ok.
Qed.

Lemma session_at_rest (events : list event) : at_rest (session events).
Proof.
  unfold session.
  assert (H0 : at_rest initial).
  { unfold at_rest; simpl. repeat split; auto.
    - exists Twenty; reflexivity.
    - exists Relevance; reflexivity. }
  revert H0. generalize initial.
  induction events as [|e events IH]; intros st Hst; simpl; [exact Hst|].
  apply IH. apply handle_at_rest. exact Hst.
Qed.

(** X18. Through any sequence of typing, choosing options and
    submitting, each submission settled before the next event, the state
    between events keeps: [loading] is off; the page size and the sort
    key are values of the selects' options; the error is empty or one of
    the two messages, and never there together with papers; every paper
    in state has its id equal to its pmid, at most five authors, and a
    non-empty abstract, journal and year. *)
Theorem X18_state_between_events (events : list event) :
  loading (session events) = false /\
  (exists v, maxResults (session events) = page_size_value v) /\
  (exists v, sortBy (session events) = sort_order_value v) /\
  (error (session events) = [] \/
   error (session events) = no_results_message \/
   error (session events) = fetch_error_message) /\
  (papers (session events) = [] \/ error (session events) = []) /\
  Forall paper_ok (papers (session events)).
Proof.
  change (at_rest (session events)). unfold session.
  assert (H0 : at_rest initial).
  { unfold at_rest; simpl. repeat split; auto.
    - exists Twenty; reflexivity.
    - exists Relevance; reflexivity. }
  revert H0. generalize initial.
  induction events as [|e events IH]; intros st Hst; simpl; [exact Hst|].
  apply IH. apply handle_at_rest. exact Hst.
Qed.

(** X19. In such a session every identifier search is requested with one
    of the four page sizes and one of the two sort keys of the selects,
    so with a URL whose parameters after the term are fixed text. *)
Theorem X19_request_parameters_from_options
    (events : list event) (b : Browser) (term : jsstring) :
  trim (query (session events)) <> [] ->
  searchTerm_of (session events) = Some term ->
  exists size order later,
    requests (submit b (session events)) =
    (esearch_prefix ++ term ++ js "&retmax=" ++ page_size_value size
     ++ js "&retmode=json&sort=" ++ sort_order_value order) :: later.
Proof.
  intros Hq Ht.
  destruct (session_at_rest events) as [_ [[size Hm] [[order Hs] _]]].
  destruct (first_request b _ term Hq Ht) as [later Hr].
  exists size, order, later. rewrite Hr. unfold searchUrl_of.
  rewrite Hm, Hs. reflexivity.
Qed.

Lemma X19_request_parameters_from_options_witness :
  trim (query (session [QueryTyped (js "aspirin"); PageSizeChosen Fifty;
                        SortChosen PublicationDate])) <> [] /\
  exists size order later,
    requests (submit Scenarios.offline
                (session [QueryTyped (js "aspirin"); PageSizeChosen Fifty;
                          SortChosen PublicationDate])) =
    (esearch_prefix ++ Scenarios.aspirin_term ++ js "&retmax="
     ++ page_size_value size
     ++ js "&retmode=json&sort=" ++ sort_order_value order) :: later.
Proof.
  assert (Hq : trim (query (session [QueryTyped (js "aspirin");
                                     PageSizeChosen Fifty;
                                     SortChosen PublicationDate])) <> [])
    by (intros H; vm_compute in H; discriminate).
  split; [exact Hq|].
  apply (X19_request_parameters_from_options
           [QueryTyped (js "aspirin"); PageSizeChosen Fifty;
            SortChosen PublicationDate]
           Scenarios.offline Scenarios.aspirin_term Hq).
  reflexivity.
Defined.

Example session_example :
  session [QueryTyped (js "aspirin"); PageSizeChosen Fifty;
           FormSubmitted Scenarios.offline; QueryTyped (js "   ");
           FormSubmitted Scenarios.healthy] =
  {| query := js "   "; papers := []; loading := false;
     error := fetch_error_message; resultCount := Finite 0;
     maxResults := js "50"; sortBy := js "relevance" |}.
Proof. reflexivity. Qed.

(** ** Where the journal, the year and the DOI come from *)

Lemma querySelector_found (sel : selector) (e el : located) :
  querySelector sel e = Some el ->
  In el (descendants e) /\ matches sel el = true.
Proof. unfold querySelector, querySelectorAll. apply hd_error_filter_some. Qed.

Lemma matches_within (outer t : jsstring) (el : located) :
  matches (Within outer t) el = true ->
  has_tag t (snd el) = true /\ In outer (fst el).
Proof.
  unfold matches. rewrite andb_true_iff. intros [Ht Hx]. split; [exact Ht|].
  apply existsb_exists in Hx. destruct Hx as [x [Hin Hx]].
  apply eqb_eq in Hx. subst x. exact Hin.
Qed.

Lemma text_or_cases (o : option located) (dflt : jsstring) :
  text_or o dflt = dflt \/
  exists el, o = Some el /\ text_or o dflt = textContent (snd el).
Proof.
  destruct o as [el|]; [|left; reflexivity].
  unfold text_or, or_else.
  destruct (textContent (snd el)) eqn:E; simpl; [left; reflexivity|].
  right. exists el. rewrite E. split; reflexivity.
Qed.

(** X20. The journal of a record, when it is not the default, is the
    text of a Title element that lies inside a Journal element; the year,
    when it is not the default, is the text of a Year element inside a
    PubDate element (not of the Year of another date); a DOI is the text
    of an ArticleId element whose IdType attribute is [doi]. *)
Theorem X20_fields_from_scoped_elements (article : located) (p : Paper) :
  paper_of article = Some p ->
  (journal p = js "Unknown Journal" \/
   exists el, In el (descendants article) /\
              has_tag (js "Title") (snd el) = true /\
              In (js "Journal") (fst el) /\
              journal p = textContent (snd el)) /\
  (year p = js "N/A" \/
   exists el, In el (descendants article) /\
              has_tag (js "Year") (snd el) = true /\
              In (js "PubDate") (fst el) /\
              year p = textContent (snd el)) /\
  (forall d, doi p = Some d ->
   exists el attrs cs,
     In el (descendants article) /\
     snd el = Element (js "ArticleId") attrs cs /\
     attr (js "IdType") attrs = Some (js "doi") /\
     d = textContent (snd el)).
Proof.
  unfold paper_of.
  destruct (querySelector (ByTag (js "ArticleTitle")) article) as [t|];
    [|discriminate].
  destruct (querySelector (ByTag (js "PMID")) article) as [m|]; [|discriminate].
  intros H; injection H as <-. cbn [journal year doi].
  split; [|split].
  - destruct (text_or_cases
                (querySelector (Within (js "Journal") (js "Title")) article)
                (js "Unknown Journal")) as [H|[el [Hq H]]]; [left; exact H|].
    right. exists el. apply querySelector_found in Hq. destruct Hq as [Hin Hm].
    apply matches_within in Hm. destruct Hm as [Ht Ha]. auto.
  - destruct (text_or_cases
                (querySelector (Within (js "PubDate") (js "Year")) article)
                (js "N/A")) as [H|[el [Hq H]]]; [left; exact H|].
    right. exists el. apply querySelector_found in Hq. destruct Hq as [Hin Hm].
    apply matches_within in Hm. destruct Hm as [Ht Ha]. auto.
  - intros d.
    destruct (querySelector (ByTagAttr (js "ArticleId") (js "IdType") (js "doi"))
                article) as [el|] eqn:Hq; [|discriminate].
    destruct (nonempty (textContent (snd el))); [|discriminate].
    intros Hd; injection Hd as <-.
    apply querySelector_found in Hq. destruct Hq as [Hin Hm].
    unfold matches in Hm. apply andb_true_iff in Hm. destruct Hm as [Ht Hv].
    destruct (snd el) as [tag attrs cs| |] eqn:Es; try discriminate.
    unfold has_tag in Ht. apply eqb_eq in Ht. subst tag.
    destruct (attr (js "IdType") attrs) as [v|] eqn:Ea; [|discriminate].
    apply eqb_eq in Hv. subst v.
    exists el, attrs, cs. rewrite Es. auto.
Qed.

Lemma X20_fields_from_scoped_elements_witness :
  paper_of Samples.two_authors = Some Samples.two_authors_paper /\
  (journal Samples.two_authors_paper = js "Unknown Journal" \/
   exists el, In el (descendants Samples.two_authors) /\
              has_tag (js "Title") (snd el) = true /\
              In (js "Journal") (fst el) /\
              journal Samples.two_authors_paper = textContent (snd el)).
Proof.
  split; [reflexivity|].
  destruct (X20_fields_from_scoped_elements Samples.two_authors
              Samples.two_authors_paper eq_refl) as [H _].
  exact H.
Defined.

(** The year of the publication date, not of the revision date that
    comes before it in the record. *)
Example year_of_pubdate :
  option_map year
    (paper_of
       ([],
        Samples.el "PubmedArticle"
          [Samples.el "MedlineCitation"
             [Samples.el "PMID" [Samples.txt "7"];
              Samples.el "DateRevised" [Samples.el "Year" [Samples.txt "2021"]];
              Samples.el "Article"
                [Samples.el "Journal"
                   [Samples.el "JournalIssue"
                      [Samples.el "PubDate" [Samples.el "Year" [Samples.txt "2019"]]]];
                 Samples.el "ArticleTitle" [Samples.txt "T"]]]]))
  = Some (js "2019").
Proof. reflexivity. Qed.
